(** * Business analytics dashboard (src/app.py): model and properties

    The dashboard keeps a generated table of 100 daily rows, filters it by
    an inclusive date range, and derives three value-box texts, a trend
    figure with a trailing moving average, a descriptive-statistics table
    and a raw data grid from the filtered table.

    Modelling conventions.
    - A calendar date is the number of days since 1970-01-01, a [Z].  The
      values compared with the date column carry their Python type: a
      pandas [Timestamp] or a [datetime.date].
    - A finite float64 is the rational it denotes ([Q]).  The results of
      float arithmetic are values of [Float64.t]: finite, infinite or NaN;
      [Float64.round] is the rounding of binary64 (to nearest, ties to
      even).  Zero has no sign.  The mean of a rolling window and the
      cumulative sum of the generator are taken exactly.
    - The statistics of pandas whose order of evaluation the source does
      not fix (the mean, the standard deviation and the quantiles of a
      column) are functions of a [Library].
    - A pandas DataFrame is a list of rows over the four columns the
      generator creates, together with the columns added later by item
      assignment (name, values), in insertion order.
    - Python exceptions are values of [Py.exn]; code that can raise returns
      a [Py.result].
    - The object cached by the reactive calculation is shared by every
      output that reads it; the session state holds that one object, so an
      item assignment on it is seen by every later reader. *)

From Stdlib Require Import String Ascii.
From Stdlib Require Import ZArith NArith QArith Qround Qabs Qpower List Bool Lia Lqa.
From Stdlib Require Import Sorted Permutation.
From Stdlib Require Import DecimalString.
From Stdlib Require DecimalFacts DecimalPos DecimalN.
Import ListNotations.

Local Open Scope Z_scope.

(** ** Python results *)

Module Py.

Inductive exn : Type :=
| NameError (name : string)
| AttributeError (attr : string)
| TypeError (msg : string)
| IndexError (msg : string).

Inductive result (A : Type) : Type :=
| Ok (a : A)
| Raise (e : exn).

Arguments Ok {A} a.
Arguments Raise {A} e.

Definition bind {A B : Type} (m : result A) (k : A -> result B) : result B :=
  match m with
  | Ok a => k a
  | Raise e => Raise e
  end.

End Py.

(** ** Calendar dates *)

Module Calendar.

(** Day number of the proleptic Gregorian date [y]-[m]-[d], counted from
    1970-01-01. *)
Definition days_from_civil (y m d : Z) : Z :=
  let y' := if m <=? 2 then y - 1 else y in
  let era := y' / 400 in
  let yoe := y' - era * 400 in
  let mp := if m <=? 2 then m + 9 else m - 3 in
  let doy := (153 * mp + 2) / 5 + d - 1 in
  let doe := yoe * 365 + yoe / 4 - yoe / 100 + doy in
  era * 146097 + doe - 719468.

(** [pd.date_range(start, periods=n, freq='D')]. *)
Definition date_range (start : Z) (periods : nat) : list Z :=
  map (fun i => start + Z.of_nat i) (seq 0 periods).

End Calendar.

(** ** Data frames *)

Record Row : Type := mkRow {
  date : Z;
  sales : Q;
  users : Z;
  conversion : Q
}.

(** The keys of the metric selector, lines 26-29. *)
Inductive Metric : Type := Sales | Users | Conversion.

Definition metric_key (m : Metric) : string :=
  match m with
  | Sales => "sales"
  | Users => "users"
  | Conversion => "conversion"
  end.

Record DataFrame : Type := mkFrame {
  rows : list Row;
  extra : list (string * list (option Q))
}.

Definition col_date (f : DataFrame) : list Z := map date (rows f).
Definition col_sales (f : DataFrame) : list Q := map sales (rows f).
Definition col_users (f : DataFrame) : list Z := map users (rows f).
Definition col_conversion (f : DataFrame) : list Q := map conversion (rows f).

(** [data[metric]] read as a float series; the integer column [users] is
    promoted to float by the arithmetic that follows. *)
Definition getitem (f : DataFrame) (m : Metric) : list Q :=
  match m with
  | Sales => col_sales f
  | Users => map inject_Z (col_users f)
  | Conversion => col_conversion f
  end.

(** The names of the columns, in the order a grid shows them. *)
Definition columns (f : DataFrame) : list string :=
  ["date"; "sales"; "users"; "conversion"]%string ++ map fst (extra f).

Fixpoint assoc_set {V : Type} (k : string) (v : V) (l : list (string * V))
  : list (string * V) :=
  match l with
  | [] => [(k, v)]
  | (k', v') :: tl =>
      if String.eqb k k' then (k, v) :: tl else (k', v') :: assoc_set k v tl
  end.

Fixpoint assoc_get {V : Type} (k : string) (l : list (string * V)) : option V :=
  match l with
  | [] => None
  | (k', v') :: tl => if String.eqb k k' then Some v' else assoc_get k tl
  end.

(** [data[name] = values]: replaces the column when it exists, appends it
    otherwise.  Only derived columns are ever assigned (line 105). *)
Definition setitem (f : DataFrame) (name : string) (values : list (option Q))
  : DataFrame :=
  {| rows := rows f; extra := assoc_set name values (extra f) |}.

(** A Python value that line 76 compares with the date column, with its
    day number: a pandas [Timestamp], of the type of the column, or a
    [datetime.date], the type of the values a date range input delivers. *)
Inductive scalar : Type :=
| Timestamp (day : Z)
| Date (day : Z).

Definition day_of (x : scalar) : Z :=
  match x with
  | Timestamp d => d
  | Date d => d
  end.

Definition days (range : scalar * scalar) : Z * Z :=
  (day_of (fst range), day_of (snd range)).

(** What pandas raises when a [datetime64] column is compared with a
    [datetime.date]. *)
Definition invalid_comparison : Py.exn :=
  Py.TypeError "Invalid comparison between dtype=datetime64[ns] and date".

(** [column >= x] and [column <= x] on the date column, element by
    element.  A [Timestamp] is compared by its day; a [datetime.date] is
    refused, whatever the column holds. *)
Definition series_ge (s : list Z) (x : scalar) : Py.result (list bool) :=
  match x with
  | Timestamp d => Py.Ok (map (fun e => d <=? e) s)
  | Date _ => Py.Raise invalid_comparison
  end.

Definition series_le (s : list Z) (x : scalar) : Py.result (list bool) :=
  match x with
  | Timestamp d => Py.Ok (map (fun e => e <=? d) s)
  | Date _ => Py.Raise invalid_comparison
  end.

(** [a & b] on boolean series. *)
Definition series_and (a b : list bool) : list bool :=
  map (fun p => fst p && snd p) (combine a b).

(** Selection of the positions where a boolean mask is true. *)
Fixpoint select {A : Type} (l : list A) (mask : list bool) : list A :=
  match l, mask with
  | x :: l', b :: mask' => if b then x :: select l' mask' else select l' mask'
  | _, _ => []
  end.

(** [df[mask]]: a new frame with the selected rows of every column. *)
Definition getitem_mask (f : DataFrame) (mask : list bool) : DataFrame :=
  {| rows := select (rows f) mask;
     extra := map (fun c => (fst c, select (snd c) mask)) (extra f) |}.

(** Lines 76-77, as a function of the table and of the selected range:
    the two comparisons, left to right, then the selection. *)
Definition filter_frame (df : DataFrame) (range : scalar * scalar)
  : Py.result DataFrame :=
  Py.bind (series_ge (col_date df) (fst range)) (fun ge =>
  Py.bind (series_le (col_date df) (snd range)) (fun le =>
  let date_filter := series_and ge le in
  Py.Ok (getitem_mask df date_filter))).

(** Number of rows whose date lies in the inclusive interval. *)
Fixpoint count_in_range (lo hi : Z) (l : list Row) : nat :=
  match l with
  | [] => O
  | r :: l' =>
      if Z_le_dec lo (date r) then
        if Z_le_dec (date r) hi then S (count_in_range lo hi l')
        else count_in_range lo hi l'
      else count_in_range lo hi l'
  end.

(** [Selected P l v]: [v] keeps, in order, exactly the elements of [l]
    that satisfy [P]. *)
Inductive Selected {A : Type} (P : A -> Prop) : list A -> list A -> Prop :=
| Selected_nil : Selected P [] []
| Selected_keep x l v : P x -> Selected P l v -> Selected P (x :: l) (x :: v)
| Selected_skip x l v : ~ P x -> Selected P l v -> Selected P (x :: l) v.

Definition in_range (range : Z * Z) (r : Row) : Prop :=
  fst range <= date r <= snd range.

Definition ascending (l : list Row) : Prop :=
  Sorted (fun a b => date a <= date b) l.

(** ** Floating point *)

Module Float64.

Local Open Scope Q_scope.

(** A float64: the rational a finite one denotes, an infinity, or NaN. *)
Inductive t : Type :=
| Finite (q : Q)
| Inf (negative : bool)
| NaN.

(** Rounding to the nearest integer, ties to the even one. *)
Definition round_half_even (q : Q) : Z :=
  let fl := Qfloor q in
  match Qcompare (q - inject_Z fl) (1 # 2) with
  | Lt => fl
  | Gt => (fl + 1)%Z
  | Eq => if Z.even fl then fl else (fl + 1)%Z
  end.

(** [2^e] for an integer exponent. *)
Definition pow2 (e : Z) : Q :=
  if (0 <=? e)%Z then inject_Z (2 ^ e) else / inject_Z (2 ^ (- e)).

(** The exponent [k] with [2^k <= |q| < 2^(k+1)], for [q] other than 0. *)
Definition ilog2 (q : Q) : Z :=
  let k := (Z.log2 (Z.abs (Qnum q)) - Z.log2 (Z.pos (Qden q)))%Z in
  if Qle_bool (pow2 k) (Qabs q) then k else (k - 1)%Z.

(** The exponent of the smallest subnormal number, and the first power of
    two that overflows. *)
Definition emin : Z := -1074.
Definition emax : Z := 1024.

(** The exponent of the last place of the float64 numbers around [q]: a
    significand of 53 bits, down to the subnormal numbers. *)
Definition ulp_exponent (q : Q) : Z := Z.max emin (ilog2 q - 52).

Definition is_negative (q : Q) : bool := negb (Qle_bool 0 q).

(** The float64 nearest to a rational, ties to the even significand; a
    result of magnitude [2^1024] or more is an infinity. *)
Definition round (x : Q) : t :=
  let q := Qred x in
  if Qeq_bool q 0 then Finite 0
  else
    let e := ulp_exponent q in
    let m := round_half_even (q / pow2 e) in
    let r := inject_Z m * pow2 e in
    if Qle_bool (pow2 emax) (Qabs r) then Inf (is_negative q)
    else Finite (Qred r).

(** The conversion of an integer. *)
Definition of_Z (z : Z) : t := round (inject_Z z).

Definition mul (x y : t) : t :=
  match x, y with
  | NaN, _ | _, NaN => NaN
  | Finite a, Finite b => round (a * b)
  | Inf s, Inf s' => Inf (xorb s s')
  | Inf s, Finite b | Finite b, Inf s =>
      if Qeq_bool b 0 then NaN else Inf (xorb s (is_negative b))
  end.

(** Division, as numpy divides: by zero it gives an infinity, or NaN for
    zero by zero. *)
Definition div (x y : t) : t :=
  match x, y with
  | NaN, _ | _, NaN => NaN
  | Inf _, Inf _ => NaN
  | Inf s, Finite b => Inf (xorb s (is_negative b))
  | Finite _, Inf _ => Finite 0
  | Finite a, Finite b =>
      if Qeq_bool b 0
      then (if Qeq_bool a 0 then NaN else Inf (is_negative a))
      else round (a / b)
  end.

(** [numpy.rint]: the nearest integer, ties to even. *)
Definition rint (x : t) : t :=
  match x with
  | Finite q => Finite (inject_Z (round_half_even q))
  | _ => x
  end.

End Float64.

(** ** Series statistics *)

Local Open Scope Q_scope.

Definition Qsum (l : list Q) : Q := fold_right Qplus 0 l.

Definition Qlen {A : Type} (l : list A) : Q := inject_Z (Z.of_nat (length l)).

(** The mean of the values of a window; none for an empty window. *)
Definition mean (l : list Q) : option Q :=
  match l with
  | [] => None
  | _ :: _ => Some (Qsum l / Qlen l)
  end.

(** The values a trailing window of size [w] sees at position [i]: the
    positions [i-w+1 .. i], clipped at the start of the series. *)
Definition window_at (w i : nat) (xs : list Q) : list Q :=
  let start := (i + 1 - w)%nat in
  firstn (i + 1 - start) (skipn start xs).

(** [Series.rolling(window=w).mean()].  [min_periods] defaults to the
    window size: a position with fewer observations is NaN. *)
Definition rolling_mean (w : nat) (xs : list Q) : list (option Q) :=
  map (fun i =>
         let win := window_at w i xs in
         if (w <=? length win)%nat then mean win else None)
      (seq 0 (length xs)).

(** [Series.iloc[-1]]. *)
Definition iloc_last {A : Type} (l : list A) : Py.result A :=
  match rev l with
  | [] => Py.Raise (Py.IndexError "single positional indexer is out-of-bounds")
  | x :: _ => Py.Ok x
  end.

(** The reductions of pandas over a column of at least one value (two for
    the standard deviation): the float each of them returns.  The source
    does not fix the order of their additions. *)
Record Library : Type := mkLibrary {
  lib_mean : list Q -> Float64.t;
  lib_std : list Q -> Float64.t;
  lib_quantile : Q -> list Q -> Float64.t
}.

(** [Series.mean()]: NaN on an empty series. *)
Definition series_mean (lib : Library) (l : list Q) : Float64.t :=
  match l with
  | [] => Float64.NaN
  | _ :: _ => lib_mean lib l
  end.

Local Close Scope Q_scope.

(** ** Number formatting *)

Module Fmt.

Local Open Scope Q_scope.

(** [ndarray.round(d)] on a float cell: the cell times [10^d], rounded to
    an integer, divided by [10^d], each step in float64. *)
Definition round_decimals (d : nat) (x : Float64.t) : Float64.t :=
  let scale := Float64.of_Z (10 ^ Z.of_nat d) in
  Float64.div (Float64.rint (Float64.mul x scale)) scale.

(** Decimal digits of a natural number, most significant first. *)
Definition decimal (n : N) : list ascii :=
  list_ascii_of_string (NilZero.string_of_uint (N.to_uint n)).

(** A comma after every third digit, on the digits in reverse order. *)
Fixpoint group3_rev (l : list ascii) : list ascii :=
  match l with
  | a :: b :: c :: tl =>
      match tl with
      | [] => [a; b; c]
      | _ :: _ => a :: b :: c :: ","%char :: group3_rev tl
      end
  | _ => l
  end.

(** The [,] option of a format specification. *)
Definition thousands (digits : list ascii) : list ascii :=
  rev (group3_rev (rev digits)).

Definition zero_pad (width : nat) (digits : list ascii) : list ascii :=
  repeat "0"%char (width - length digits) ++ digits.

(** The value scaled by [10^prec] and rounded: the digits to print. *)
Definition scaled (prec : nat) (q : Q) : N :=
  Z.to_N (Float64.round_half_even (Qabs q * inject_Z (10 ^ Z.of_nat prec))).

(** Fixed-point presentation [{:.<prec>f}] ([{:,.<prec>f}] with
    [comma]) of a finite value. *)
Definition fixed_chars (comma : bool) (prec : nat) (q : Q) : list ascii :=
  let n := scaled prec q in
  let unit := (10 ^ N.of_nat prec)%N in
  let ip := decimal (n / unit) in
  let fp :=
    match prec with
    | O => []
    | S _ => "."%char :: zero_pad prec (decimal (n mod unit))
    end in
  (if Qlt_le_dec q 0 then ["-"%char] else [])
    ++ (if comma then thousands ip else ip) ++ fp.

(** The presentation of a float: its digits, or [inf], [-inf], [nan]. *)
Definition float_chars (comma : bool) (prec : nat) (x : Float64.t) : list ascii :=
  match x with
  | Float64.Finite q => fixed_chars comma prec q
  | Float64.Inf false => list_ascii_of_string "inf"
  | Float64.Inf true => list_ascii_of_string "-inf"
  | Float64.NaN => list_ascii_of_string "nan"
  end.

Definition format_f (comma : bool) (prec : nat) (x : Float64.t) : string :=
  string_of_list_ascii (float_chars comma prec x).

(** Percentage presentation [{:.<prec>%}]: the float is multiplied by
    100, the product is presented in fixed point, and a percent sign
    follows. *)
Definition format_percent (prec : nat) (x : Float64.t) : string :=
  string_of_list_ascii
    (float_chars false prec (Float64.mul x (Float64.Finite 100)) ++ ["%"%char]).

(** [str.title()] on ASCII text. *)
Definition is_lower (c : ascii) : bool :=
  (97 <=? nat_of_ascii c)%nat && (nat_of_ascii c <=? 122)%nat.
Definition is_upper (c : ascii) : bool :=
  (65 <=? nat_of_ascii c)%nat && (nat_of_ascii c <=? 90)%nat.
Definition to_upper (c : ascii) : ascii :=
  if is_lower c then ascii_of_nat (nat_of_ascii c - 32) else c.
Definition to_lower (c : ascii) : ascii :=
  if is_upper c then ascii_of_nat (nat_of_ascii c + 32) else c.

Fixpoint title_from (in_word : bool) (s : string) : string :=
  match s with
  | EmptyString => EmptyString
  | String c s' =>
      let cased := is_lower c || is_upper c in
      String (if in_word then to_lower c else to_upper c) (title_from cased s')
  end.

Definition title (s : string) : string := title_from false s.

(** Reading back a printed number: the digits before and after the point. *)
Definition digit_value (c : ascii) : option N :=
  let n := nat_of_ascii c in
  if ((48 <=? n) && (n <=? 57))%nat then Some (N.of_nat (n - 48)) else None.

Fixpoint read_digits (acc : N) (l : list ascii) : option N :=
  match l with
  | [] => Some acc
  | c :: l' =>
      match digit_value c with
      | Some d => read_digits (acc * 10 + d) l'
      | None => None
      end
  end.

Definition remove_commas (l : list ascii) : list ascii :=
  filter (fun c => negb (Ascii.eqb c ","%char)) l.

(** The text before the decimal point and, when there is a point, the
    text after it. *)
Fixpoint split_point (l : list ascii) : list ascii * option (list ascii) :=
  match l with
  | [] => ([], None)
  | c :: l' =>
      if Ascii.eqb c "."%char then ([], Some l')
      else let (ip, fp) := split_point l' in (c :: ip, fp)
  end.

(** The text without its minus sign. *)
Definition unsigned (l : list ascii) : list ascii :=
  match l with
  | [] => []
  | c :: l' => if Ascii.eqb c "-"%char then l' else l
  end.

Definition negative (l : list ascii) : bool :=
  match l with
  | [] => false
  | c :: _ => Ascii.eqb c "-"%char
  end.

(** The integer part of a text: what stands between the sign and the
    point. *)
Definition integer_text (l : list ascii) : list ascii :=
  fst (split_point (unsigned l)).

(** The number a text denotes: an optional minus sign, integer digits
    with optional separators, and optionally a point and more digits. *)
Definition read_number (l : list ascii) : option Q :=
  let (ip, fp) := split_point (unsigned l) in
  let frac := match fp with Some ds => ds | None => [] end in
  match read_digits 0 (remove_commas ip), read_digits 0 frac with
  | Some a, Some b =>
      let v := inject_Z (Z.of_N a)
               + inject_Z (Z.of_N b) / inject_Z (10 ^ Z.of_nat (length frac)) in
      Some (if negative l then - v else v)
  | _, _ => None
  end.

(** The number of digits after the point; [None] without a point. *)
Definition decimals_shown (l : list ascii) : option nat :=
  option_map (@length ascii) (snd (split_point l)).


Definition is_digit (c : ascii) : Prop := digit_value c <> None.




End Fmt.

(** ** Descriptive statistics *)

Module Describe.

Local Open Scope Q_scope.

(** One column of the table [describe()] returns: a float cell per
    statistic, in the order of the index. *)
Record Column : Type := mkColumn {
  count : Float64.t;
  mean_ : Float64.t;
  std : Float64.t;
  min_ : Float64.t;
  q25 : Float64.t;
  q50 : Float64.t;
  q75 : Float64.t;
  max_ : Float64.t
}.

Definition Qmin (a b : Q) : Q := if Qle_bool a b then a else b.
Definition Qmax (a b : Q) : Q := if Qle_bool a b then b else a.

(** [Series.min()] and [Series.max()]: NaN on an empty series. *)
Definition series_min (l : list Q) : Float64.t :=
  match l with
  | [] => Float64.NaN
  | x :: l' => Float64.Finite (fold_left Qmin l' x)
  end.

Definition series_max (l : list Q) : Float64.t :=
  match l with
  | [] => Float64.NaN
  | x :: l' => Float64.Finite (fold_left Qmax l' x)
  end.

Section Stats.

Variable lib : Library.

(** [Series.std()]: one delta degree of freedom, NaN below two values. *)
Definition series_std (l : list Q) : Float64.t :=
  match l with
  | [] => Float64.NaN
  | [_] => Float64.NaN
  | _ :: _ :: _ => lib_std lib l
  end.

(** [Series.quantile(p)]: NaN on an empty series. *)
Definition quantile (p : Q) (l : list Q) : Float64.t :=
  match l with
  | [] => Float64.NaN
  | _ :: _ => lib_quantile lib p l
  end.

(** [describe()] of one numeric column. *)
Definition describe_1d (l : list Q) : Column :=
  {| count := Float64.of_Z (Z.of_nat (length l));
     mean_ := series_mean lib l;
     std := series_std l;
     min_ := series_min l;
     q25 := quantile (1 # 4) l;
     q50 := quantile (1 # 2) l;
     q75 := quantile (3 # 4) l;
     max_ := series_max l |}.

End Stats.

(** [round(d)] on every cell of a column. *)
Definition round_column (d : nat) (c : Column) : Column :=
  {| count := Fmt.round_decimals d (count c);
     mean_ := Fmt.round_decimals d (mean_ c);
     std := Fmt.round_decimals d (std c);
     min_ := Fmt.round_decimals d (min_ c);
     q25 := Fmt.round_decimals d (q25 c);
     q50 := Fmt.round_decimals d (q50 c);
     q75 := Fmt.round_decimals d (q75 c);
     max_ := Fmt.round_decimals d (max_ c) |}.

(** The statistics other than the count. *)
Definition others (c : Column) : list Float64.t :=
  [mean_ c; std c; min_ c; q25 c; q50 c; q75 c; max_ c].

End Describe.

(** ** The sample data, lines 7-18 *)

Module Random.

(** The pseudo-random generator of the numeric library: seeding gives a
    state that depends on the seed only, and every draw of one sample
    advances the state. *)
Class Generator (G : Type) : Type := {
  seed : Z -> G;
  normal : Q -> Q -> G -> Q * G;
  poisson : Q -> G -> Z * G;
  uniform : Q -> Q -> G -> Q * G
}.

(** What the distributions guarantee about the support of a sample. *)
Class Supported (G : Type) `{Generator G} : Prop := {
  poisson_nonneg : forall lam g, (0 <= fst (poisson lam g))%Z;
  uniform_range : forall low high g,
    (low < high)%Q ->
    (low <= fst (uniform low high g))%Q /\ (fst (uniform low high g) < high)%Q
}.

(** [size=n]: [n] samples drawn one after the other. *)
Fixpoint sample {G A : Type} (n : nat) (draw : G -> A * G) (g : G) : list A * G :=
  match n with
  | O => ([], g)
  | S n' =>
      let (x, g1) := draw g in
      let (xs, g2) := sample n' draw g1 in
      (x :: xs, g2)
  end.

(** A linear congruential generator, used to run the model on concrete
    data. *)
Definition lcg_next (g : Z) : Z := (g * 1103515245 + 12345) mod 2147483648.

#[global] Instance lcg : Generator Z := {|
  seed := fun n => n mod 2147483648;
  normal := fun loc scale g =>
    let g' := lcg_next g in
    ((loc + scale * inject_Z (g' mod 7 - 3))%Q, g');
  poisson := fun lam g =>
    let g' := lcg_next g in
    (Z.max 0 (Qfloor lam + g' mod 41 - 20), g');
  uniform := fun low high g =>
    let g' := lcg_next g in
    ((low + (high - low) * (g' # 2147483648))%Q, g')
|}.

End Random.

Fixpoint cumsum_from (acc : Q) (l : list Q) : list Q :=
  match l with
  | [] => []
  | x :: l' => (acc + x)%Q :: cumsum_from (acc + x)%Q l'
  end.

(** [ndarray.cumsum()]. *)
Definition cumsum (l : list Q) : list Q :=
  match l with
  | [] => []
  | x :: l' => x :: cumsum_from x l'
  end.

(** [pd.DataFrame({...})] from four columns of equal length. *)
Fixpoint frame_rows (d : list Z) (s : list Q) (u : list Z) (c : list Q) : list Row :=
  match d, s, u, c with
  | d0 :: d', s0 :: s', u0 :: u', c0 :: c' =>
      mkRow d0 s0 u0 c0 :: frame_rows d' s' u' c'
  | _, _, _, _ => []
  end.

Section Generation.

Context {G : Type} `{Random.Generator G}.

(** [create_sample_data()]; the argument is the state of the global
    generator at the call, which the seeding discards. *)
Definition create_sample_data (g : G) : DataFrame * G :=
  let g0 := Random.seed 123 in
  let dates := Calendar.date_range (Calendar.days_from_civil 2023 1 1) 100 in
  let (s, g1) := Random.sample 100 (Random.normal 1000 200) g0 in
  let (u, g2) := Random.sample 100 (Random.poisson 500) g1 in
  let (c, g3) := Random.sample 100 (Random.uniform (1 # 100) (5 # 100)) g2 in
  ({| rows := frame_rows dates (cumsum s) u c; extra := [] |}, g3).

End Generation.

(** ** Names visible in the server function *)

Module Scope.

(** An object, as far as a decorator needs it: whether it can be called,
    and the attributes it has. *)
#[warnings="-register-all"] Inductive object : Type :=
| Object (callable : bool) (attrs : list (string * object)).

Definition callable (o : object) : bool :=
  match o with Object c _ => c end.

Definition attrs (o : object) : list (string * object) :=
  match o with Object _ a => a end.

(** A function or a class; a value that cannot be called; a module with
    the given functions and classes. *)
Definition function : object := Object true [].
Definition value : object := Object false [].
Definition module (names : list string) : object :=
  Object false (map (fun n => (n, function)) names).

(** [shiny.render], with the renderers the source reads from it. *)
Definition shiny_render : object :=
  module ["text"; "plot"; "table"; "data_frame"; "DataGrid"]%string.

(** [shiny.reactive], which the source never imports. *)
Definition shiny_reactive : object :=
  module ["Calc"; "Effect"; "Value"; "event"]%string.

(** The statements of the module that bind a name, lines 1-130, with the
    object each name is bound to. *)
Inductive binding : Type :=
| FromImport (module : string) (names : list (string * object))
| ImportAs (module : string) (name : string) (o : object)
| Def (name : string)
| Assign (name : string) (o : object).

Definition bound (b : binding) : list (string * object) :=
  match b with
  | FromImport _ names => names
  | ImportAs _ name o => [(name, o)]
  | Def name => [(name, function)]
  | Assign name o => [(name, o)]
  end.

Definition module_statements : list binding :=
  [ FromImport "shiny"
      [("App", function); ("render", shiny_render); ("ui", module [])];
    ImportAs "pandas" "pd" (module []);
    ImportAs "matplotlib.pyplot" "plt" (module []);
    ImportAs "numpy" "np" (module []);
    Def "create_sample_data";
    Assign "df" value;
    Assign "app_ui" value;
    Def "server";
    Assign "app" function ]%string.

Definition module_globals : list (string * object) :=
  flat_map bound module_statements.

(** The built-in functions and constants of the language. *)
Definition builtins : list string :=
  [ "abs"; "aiter"; "all"; "anext"; "any"; "ascii"; "bin"; "bool";
    "breakpoint"; "bytearray"; "bytes"; "callable"; "chr"; "classmethod";
    "compile"; "complex"; "delattr"; "dict"; "dir"; "divmod"; "enumerate";
    "eval"; "exec"; "filter"; "float"; "format"; "frozenset"; "getattr";
    "globals"; "hasattr"; "hash"; "help"; "hex"; "id"; "input"; "int";
    "isinstance"; "issubclass"; "iter"; "len"; "list"; "locals"; "map";
    "max"; "memoryview"; "min"; "next"; "object"; "oct"; "open"; "ord";
    "pow"; "print"; "property"; "range"; "repr"; "reversed"; "round";
    "set"; "setattr"; "slice"; "sorted"; "staticmethod"; "str"; "sum";
    "super"; "tuple"; "type"; "vars"; "zip"; "__import__";
    "True"; "False"; "None"; "NotImplemented"; "Ellipsis"; "__debug__" ]%string.

(** A decorator expression: a name, or an attribute of an expression. *)
Inductive expr : Type :=
| Name (id : string)
| Attribute (value : expr) (attr : string).

Record FunctionDef : Type := mkDef {
  def_name : string;
  decorators : list expr
}.

(** The body of [server], lines 74-128: seven decorated definitions. *)
Definition server_body : list FunctionDef :=
  [ mkDef "filtered_data" [Attribute (Name "reactive") "Calc"];
    mkDef "total_sales" [Name "output"; Attribute (Name "render") "text"];
    mkDef "avg_users" [Name "output"; Attribute (Name "render") "text"];
    mkDef "conv_rate" [Name "output"; Attribute (Name "render") "text"];
    mkDef "trend_plot" [Name "output"; Attribute (Name "render") "plot"];
    mkDef "summary_table" [Name "output"; Attribute (Name "render") "table"];
    mkDef "raw_data" [Name "output"; Attribute (Name "render") "data_frame"]
  ]%string.

Definition mem (x : string) (l : list string) : bool :=
  existsb (String.eqb x) l.

(** The state of a call of [server]: its local names, the latest binding
    first, and the outputs registered so far. *)
Record Frame : Type := mkScope {
  locals : list (string * object);
  registered : list string
}.

(** The parameters of [server]: the inputs, the callable that registers
    an output, and the session. *)
Definition parameters : list (string * object) :=
  [("input", value); ("output", function); ("session", value)]%string.

Definition not_callable : Py.exn := Py.TypeError "object is not callable".

Section Resolve.

Variable globals : list (string * object).

(** Evaluation of a name: local scope, then module scope, then
    built-ins. *)
Definition lookup (f : Frame) (id : string) : Py.result object :=
  match assoc_get id (locals f) with
  | Some o => Py.Ok o
  | None =>
      match assoc_get id globals with
      | Some o => Py.Ok o
      | None =>
          if mem id builtins then Py.Ok function
          else Py.Raise (Py.NameError id)
      end
  end.

(** Evaluation of an expression: an attribute is read from the object
    its left side evaluates to. *)
Fixpoint eval (f : Frame) (e : expr) : Py.result object :=
  match e with
  | Name id => lookup f id
  | Attribute v a =>
      Py.bind (eval f v) (fun o =>
        match assoc_get a (attrs o) with
        | Some o' => Py.Ok o'
        | None => Py.Raise (Py.AttributeError a)
        end)
  end.

(** The decorator expressions are evaluated in source order. *)
Fixpoint eval_decorators (f : Frame) (ds : list expr) : Py.result (list object) :=
  match ds with
  | [] => Py.Ok []
  | d :: ds' =>
      Py.bind (eval f d) (fun o =>
      Py.bind (eval_decorators f ds') (fun os => Py.Ok (o :: os)))
  end.

(** The decorators are applied from the last one to the first one; each
    of them is called. *)
Fixpoint apply_decorators (os : list object) : Py.result unit :=
  match os with
  | [] => Py.Ok tt
  | o :: os' =>
      Py.bind (apply_decorators os') (fun _ =>
        if callable o then Py.Ok tt else Py.Raise not_callable)
  end.

Definition is_output (d : expr) : bool :=
  match d with
  | Name id => String.eqb id "output"
  | Attribute _ _ => false
  end.

(** A decorated definition: the decorator expressions are evaluated
    first; then the decorators are applied, the function is bound, and it
    is registered when [output] decorates it. *)
Definition exec_def (f : Frame) (d : FunctionDef) : Py.result unit * Frame :=
  match Py.bind (eval_decorators f (decorators d)) apply_decorators with
  | Py.Raise e => (Py.Raise e, f)
  | Py.Ok _ =>
      (Py.Ok tt,
       {| locals := (def_name d, function) :: locals f;
          registered :=
            if existsb is_output (decorators d)
            then registered f ++ [def_name d] else registered f |})
  end.

Fixpoint exec_body (f : Frame) (body : list FunctionDef) : Py.result unit * Frame :=
  match body with
  | [] => (Py.Ok tt, f)
  | d :: body' =>
      match exec_def f d with
      | (Py.Ok _, f') => exec_body f' body'
      | (Py.Raise e, f') => (Py.Raise e, f')
      end
  end.

(** A call [server(input, output, session)]. *)
Definition server : Py.result unit * Frame :=
  exec_body {| locals := parameters; registered := [] |} server_body.

End Resolve.

End Scope.

(** ** The reactive session *)

Record Inputs : Type := mkInputs {
  date_range : scalar * scalar;
  metric : Metric;
  window : nat
}.

(** The inputs of the session and the value cached by the reactive
    calculation [filtered_data], if it is valid. *)
Record Session : Type := mkSession {
  inputs : Inputs;
  calc_value : option DataFrame
}.

Definition M (A : Type) : Type := Session -> Py.result A * Session.

Definition ret {A : Type} (a : A) : M A := fun s => (Py.Ok a, s).

Definition bind {A B : Type} (m : M A) (k : A -> M B) : M B :=
  fun s =>
    match m s with
    | (Py.Ok a, s') => k a s'
    | (Py.Raise e, s') => (Py.Raise e, s')
    end.

Definition lift {A : Type} (r : Py.result A) : M A := fun s => (r, s).

Declare Scope session_scope.
Delimit Scope session_scope with session.
Notation "x <- m ;; k" := (bind m (fun x => k))
  (at level 61, m at next level, right associativity) : session_scope.
Notation "m ;;; k" := (bind m (fun _ => k))
  (at level 61, right associativity) : session_scope.

Definition input {A : Type} (field : Inputs -> A) : M A :=
  fun s => (Py.Ok (field (inputs s)), s).

(** The object held by the reactive calculation is replaced by [v]: the
    effect of mutating that object in place. *)
Definition mutate_cached (v : DataFrame) : M unit :=
  fun s => (Py.Ok tt, {| inputs := inputs s; calc_value := Some v |}).

(** Equality of two values of the range input: the same type and the same
    day. *)
Definition scalar_eqb (a b : scalar) : bool :=
  match a, b with
  | Timestamp x, Timestamp y => x =? y
  | Date x, Date y => x =? y
  | _, _ => false
  end.

(** A change of the inputs; the cached view depends on the date range
    only and is invalidated when the range changes. *)
Definition range_eqb (a b : scalar * scalar) : bool :=
  scalar_eqb (fst a) (fst b) && scalar_eqb (snd a) (snd b).

Definition set_inputs (i : Inputs) (s : Session) : Session :=
  {| inputs := i;
     calc_value :=
       if range_eqb (date_range i) (date_range (inputs s))
       then calc_value s else None |}.

Definition new_session (i : Inputs) : Session :=
  {| inputs := i; calc_value := None |}.

(** What the plot shows: two lines over the dates, and a title. *)
Record Line : Type := mkLine {
  line_x : list Z;
  line_y : list (option Q);
  line_label : string
}.

Record Figure : Type := mkFigure {
  fig_lines : list Line;
  fig_title : string
}.

(** The summary table: a described column per selected column. *)
Record Summary : Type := mkSummary {
  sum_sales : Describe.Column;
  sum_users : Describe.Column;
  sum_conversion : Describe.Column
}.

Record DataGrid : Type := mkDataGrid {
  grid_data : DataFrame;
  row_selection_mode : string
}.

Section Server.

Local Open Scope session_scope.

Variable lib : Library.

(** The module-level table, line 18. *)
Variable df : DataFrame.

(** Lines 74-77.  The body runs when no valid value is cached; the value
    computed is cached and the same object is returned to every caller.
    When the body raises, nothing is cached. *)
Definition filtered_data : M DataFrame :=
  fun s =>
    match calc_value s with
    | Some v => (Py.Ok v, s)
    | None =>
        match filter_frame df (date_range (inputs s)) with
        | Py.Ok v => (Py.Ok v, {| inputs := inputs s; calc_value := Some v |})
        | Py.Raise e => (Py.Raise e, s)
        end
    end.

(** Lines 81-83. *)
Definition total_sales : M string :=
  data <- filtered_data ;;
  last <- lift (iloc_last (col_sales data)) ;;
  ret ("$" ++ Fmt.format_f true 0 (Float64.Finite last))%string.

(** Lines 87-89. *)
Definition avg_users : M string :=
  data <- filtered_data ;;
  ret (Fmt.format_f false 0 (series_mean lib (map inject_Z (col_users data)))).

(** Lines 93-95. *)
Definition conv_rate : M string :=
  data <- filtered_data ;;
  ret (Fmt.format_percent 2 (series_mean lib (col_conversion data))).

(** Lines 99-115. *)
Definition trend_plot : M Figure :=
  data <- filtered_data ;;
  metric <- input metric ;;
  window <- input window ;;
  let ma := rolling_mean window (getitem data metric) in
  let data := setitem data "ma" ma in
  mutate_cached data ;;;
  ret {| fig_lines :=
           [ {| line_x := col_date data;
                line_y := map Some (getitem data metric);
                line_label := "Daily" |};
             {| line_x := col_date data;
                line_y := ma;
                line_label :=
                  (string_of_list_ascii (Fmt.decimal (N.of_nat window))
                     ++ "-day MA")%string |} ];
         fig_title := (Fmt.title (metric_key metric) ++ " Over Time")%string |}.

(** Lines 119-122. *)
Definition summary_table : M Summary :=
  data <- filtered_data ;;
  let described c := Describe.round_column 2 (Describe.describe_1d lib c) in
  ret {| sum_sales := described (col_sales data);
         sum_users := described (map inject_Z (col_users data));
         sum_conversion := described (col_conversion data) |}.

(** Lines 126-128. *)
Definition raw_data : M DataGrid :=
  data <- filtered_data ;;
  ret {| grid_data := data; row_selection_mode := "multiple" |}.

End Server.

(** The view an output reads in session state [s]: the cached object
    when it is valid, the result of the filter otherwise. *)
Definition current_view (df : DataFrame) (s : Session) : Py.result DataFrame :=
  match calc_value s with
  | Some v => Py.Ok v
  | None => filter_frame df (date_range (inputs s))
  end.

(** A frame is well formed when every added column has one value per row. *)
Definition well_formed (f : DataFrame) : Prop :=
  Forall (fun c => length (snd c) = length (rows f)) (extra f).

(** The value of the selected metric on a row, as a float. *)
Definition metric_value (m : Metric) (r : Row) : Q :=
  match m with
  | Sales => sales r
  | Users => inject_Z (users r)
  | Conversion => conversion r
  end.

(** The trailing moving average of window [w] over [xs], in the words of
    the specification: position [i] holds a value exactly when
    [w - 1 <= i], that value is the mean of the [w] values at positions
    [i-w+1 .. i], and the other positions are undefined. *)
Definition window_values (w i : nat) (xs : list Q) : list Q :=
  map (fun j => nth j xs 0%Q) (seq (i + 1 - w) w).

Definition trailing_average (w : nat) (xs : list Q) (ma : list (option Q)) : Prop :=
  length ma = length xs
  /\ (forall i, (i < length xs)%nat ->
        ((exists v, nth_error ma i = Some (Some v)) <-> (w - 1 <= i)%nat)
        /\ ((w - 1 <= i)%nat ->
            nth_error ma i
            = Some (Some (Qsum (window_values w i xs) / inject_Z (Z.of_nat w))%Q))
        /\ ((i < w - 1)%nat -> nth_error ma i = Some None))
  /\ ((length xs < w)%nat -> ma = repeat None (length xs)).

(** The figure shows the daily series and the series [ma]. *)
Definition plots (fig : Figure) (daily ma : list (option Q)) : Prop :=
  exists l1 l2,
    fig_lines fig = [l1; l2] /\ line_y l1 = daily /\ line_y l2 = ma.

(** A stage leaves the shared view unchanged when the object cached after
    the stage is the one the reactive calculation returned to it. *)
Definition leaves_view_unchanged {A : Type}
    (df : DataFrame) (stage : M A) (s : Session) : Prop :=
  snd (stage s) = snd (filtered_data df s).

(** The contract of the generator, in the words of the specification:
    100 rows on consecutive days from 2023-01-01, sales the cumulative
    sums of the normal draws, users the Poisson draws, conversion rates
    the uniform draws, taken in that order from the seeded generator. *)
Definition generated_table {G : Type} `{Random.Generator G} (data : DataFrame) : Prop :=
  let start := Calendar.days_from_civil 2023 1 1 in
  let s := Random.sample 100 (Random.normal 1000 200) (Random.seed 123) in
  let u := Random.sample 100 (Random.poisson 500) (snd s) in
  let c := Random.sample 100 (Random.uniform (1 # 100) (5 # 100)) (snd u) in
  length (rows data) = 100%nat
  /\ col_date data = map (fun i => start + Z.of_nat i) (seq 0 100)
  /\ start + 99 = Calendar.days_from_civil 2023 4 10
  /\ ascending (rows data)
  /\ col_sales data = cumsum (fst s)
  /\ (forall i, (i < 100)%nat ->
        (nth i (col_sales data) 0 == Qsum (firstn (S i) (fst s)))%Q)
  /\ col_users data = fst u
  /\ Forall (fun n => 0 <= n) (col_users data)
  /\ col_conversion data = fst c
  /\ Forall (fun x => (1 # 100 <= x)%Q /\ (x <= 5 # 100)%Q) (col_conversion data)
  /\ extra data = [].

(** The digits of a whole number as they are written: at least one, and no
    zero in front unless the number is 0. *)
Definition canonical (digits : list ascii) : Prop :=
  digits <> []
  /\ Forall Fmt.is_digit digits
  /\ (hd "1"%char digits = "0"%char -> digits = ["0"%char]).

(** A text shows [x] with [prec] decimal digits when it is the decimal
    number with that many digits after the point (no point at all for
    zero digits) that is nearest to [x], the one with an even last digit
    when two are as near; it has a minus sign exactly when [x] is below
    zero, and its integer part is written without superfluous zero. *)
Definition shows (prec : nat) (x : Q) (text : list ascii) : Prop :=
  let unit := inject_Z (10 ^ Z.of_nat prec) in
  Fmt.decimals_shown text = match prec with O => None | S _ => Some prec end
  /\ canonical (Fmt.remove_commas (Fmt.integer_text text))
  /\ (Fmt.negative text = true <-> (x < 0)%Q)
  /\ exists (v : Q) (k : Z),
       Fmt.read_number text = Some v
       /\ (v == inject_Z k / unit)%Q
       /\ (Qabs (v - x) <= (1 # 2) / unit)%Q
       /\ ((Qabs (v - x) == (1 # 2) / unit)%Q -> Z.even k = true).




(** ** The statistics of a column, taken exactly

    The statistics in the words of the specification, over the rationals
    the floats denote; the results of the library are compared with
    them. *)

Definition exact_mean (xs : list Q) : Q := (Qsum xs / Qlen xs)%Q.

(** The sample variance: the squared deviations from the mean, summed and
    divided by [n - 1]. *)
Definition exact_variance (xs : list Q) : Q :=
  let mu := exact_mean xs in
  (Qsum (map (fun x => (x - mu) * (x - mu)) xs) / (Qlen xs - 1))%Q.

Fixpoint insert_sorted (x : Q) (l : list Q) : list Q :=
  match l with
  | [] => [x]
  | y :: l' => if Qle_bool x y then x :: l else y :: insert_sorted x l'
  end.

(** The values in ascending order. *)
Definition sort_values (l : list Q) : list Q := fold_right insert_sorted [] l.

(** The quantile [p] by linear interpolation: the sorted values at the
    two positions around [p (n - 1)], weighted by the fractional part of
    that position. *)
Definition exact_quantile (p : Q) (xs : list Q) : Q :=
  let s := sort_values xs in
  let pos := (p * (Qlen xs - 1))%Q in
  let lo := Z.to_nat (Qfloor pos) in
  let hi := Nat.min (lo + 1) (length s - 1) in
  (nth lo s 0 + (nth hi s 0 - nth lo s 0) * (pos - inject_Z (Qfloor pos)))%Q.













(** ** The controls, lines 20-33 *)

Module Controls.



(** The value of the date range input: a pair of [datetime.date]. *)
Definition input_date_range (first last : Z) : scalar * scalar :=
  (Date first, Date last).




End Controls.

(** The test of the date mask on one row. *)
Definition in_rangeb (range : Z * Z) (r : Row) : bool :=
  (fst range <=? date r) && (date r <=? snd range).

(** The rows of a table dated in a range, in the order of the table. *)
Definition rows_in_range (range : Z * Z) (l : list Row) : list Row :=
  filter (in_rangeb range) l.

(** The mask of lines 76-77 for a range of two days. *)
Definition date_mask (range : Z * Z) (dates : list Z) : list bool :=
  series_and (map (fun e => fst range <=? e) dates)
             (map (fun e => e <=? snd range) dates).

(** The intersection of two date ranges. *)
Definition range_meet (r1 r2 : Z * Z) : Z * Z :=
  (Z.max (fst r1) (fst r2), Z.min (snd r1) (snd r2)).

(** A range of two [Timestamp]. *)
Definition timestamps (range : Z * Z) : scalar * scalar :=
  (Timestamp (fst range), Timestamp (snd range)).

(** A session is coherent with the table when the view it caches, if
    any, has the rows the filter returns for the selected range and one
    value per row in every added column. *)
Definition coherent (df : DataFrame) (s : Session) : Prop :=
  forall v, calc_value s = Some v ->
    (exists fresh,
       filter_frame df (date_range (inputs s)) = Py.Ok fresh
       /\ rows v = rows fresh)
    /\ well_formed v.

(** The states a session goes through: it starts without a cached view;
    the inputs change; the outputs run. *)
Inductive reachable (lib : Library) (df : DataFrame) : Session -> Prop :=
| reach_new i : reachable lib df (new_session i)
| reach_input i s :
    reachable lib df s -> reachable lib df (set_inputs i s)
| reach_total_sales s :
    reachable lib df s -> reachable lib df (snd (total_sales df s))
| reach_avg_users s :
    reachable lib df s -> reachable lib df (snd (avg_users lib df s))
| reach_conv_rate s :
    reachable lib df s -> reachable lib df (snd (conv_rate lib df s))
| reach_trend_plot s :
    reachable lib df s -> reachable lib df (snd (trend_plot df s))
| reach_summary_table s :
    reachable lib df s -> reachable lib df (snd (summary_table lib df s))
| reach_raw_data s :
    reachable lib df s -> reachable lib df (snd (raw_data df s)).

(** The number of defined positions of a series with missing values. *)
Definition count_defined (l : list (option Q)) : nat :=
  length (filter (fun c => match c with Some _ => true | None => false end) l).

(** ** Concrete data *)

Module Fixture.

Local Open Scope Q_scope.

(** A library that rounds the exact statistics to float64; its square
    root approximates the root from below, to [2^-60]. *)
Definition sqrt_below (q : Q) : Q :=
  inject_Z (Z.sqrt (Qfloor (q * inject_Z (4 ^ 60)))) / inject_Z (2 ^ 60).

Definition lib : Library :=
  {| lib_mean := fun l => Float64.round (exact_mean l);
     lib_std := fun l => Float64.round (sqrt_below (exact_variance l));
     lib_quantile := fun p l => Float64.round (exact_quantile p l) |}.

(** The table the generator builds from the congruential generator. *)
Definition df : DataFrame := fst (create_sample_data (G := Z) 0%Z).

(** 2022-01-01 .. 2022-01-02, before the first row, and 2023-01-01 ..
    2023-01-10, as day numbers. *)
Definition before_start_days : Z * Z :=
  (Calendar.days_from_civil 2022 1 1, Calendar.days_from_civil 2022 1 2).

Definition first_ten_days : Z * Z :=
  (Calendar.days_from_civil 2023 1 1, Calendar.days_from_civil 2023 1 10).

(** The same ranges, given as [Timestamp]. *)
Definition before_start : scalar * scalar := timestamps before_start_days.
Definition first_ten : scalar * scalar := timestamps first_ten_days.

(** The first ten days as the date range input delivers them. *)
Definition first_ten_picked : scalar * scalar :=
  Controls.input_date_range (fst first_ten_days) (snd first_ten_days).

(** The view of the table for a range of two [Timestamp]. *)
Definition view (range : Z * Z) : DataFrame :=
  getitem_mask df (date_mask range (col_date df)).

Definition session (range : scalar * scalar) (m : Metric) (w : nat) : Session :=
  new_session {| date_range := range; metric := m; window := w |}.

(** The float64 numbers written [0.015], [0.025] and [0.02125]. *)
Definition d0015 : Q := 1080863910568919 # 72057594037927936.
Definition d0025 : Q := 3602879701896397 # 144115188075855872.
Definition d002125 : Q := 6124895493223875 # 288230376151711744.

End Fixture.

(* ------------------------------------------------------------------ *)
(** * Properties *)

(** ** The filter stage *)

Lemma select_date_mask (range : Z * Z) (l : list Row) :
  Selected (in_range range) l (select l (date_mask range (map date l))).
Proof.
  unfold date_mask, series_and, in_range.
  induction l as [|r l IH]; simpl.
  - constructor.
  - destruct (Z.leb_spec (fst range) (date r));
      destruct (Z.leb_spec (date r) (snd range)); simpl;
      first [ apply Selected_keep; [lia | exact IH]
            | apply Selected_skip; [lia | exact IH] ].
Qed.

Section SelectedFacts.

Context {A : Type} (P : A -> Prop).

Lemma Selected_In (l v : list A) :
  Selected P l v -> forall x, In x v <-> In x l /\ P x.
Proof.
  induction 1 as [|x l v Px _ IH|x l v Px _ IH]; intros y; simpl.
  - tauto.
  - rewrite IH. split.
    + intros [->|[Hy Py]]; auto.
    + intros [[->|Hy] Py]; auto.
  - rewrite IH. split.
    + intros [Hy Py]; auto.
    + intros [[->|Hy] Py]; [contradiction | auto].
Qed.

Lemma Selected_none (l v : list A) :
  Selected P l v -> (forall x, In x l -> ~ P x) -> v = [].
Proof.
  induction 1 as [|x l v Px _ IH|x l v Px _ IH]; intros Hn.
  - reflexivity.
  - exfalso. apply (Hn x); [left; reflexivity | exact Px].
  - apply IH. intros y Hy. apply Hn. right. exact Hy.
Qed.

Lemma Selected_all (l : list A) :
  (forall x, In x l -> P x) -> Selected P l l.
Proof.
  induction l as [|x l IH]; intros Hall.
  - constructor.
  - apply Selected_keep.
    + apply Hall. left. reflexivity.
    + apply IH. intros y Hy. apply Hall. right. exact Hy.
Qed.

Lemma Selected_unique (l v v' : list A) :
  Selected P l v -> Selected P l v' -> v = v'.
Proof.
  intros H. revert v'.
  induction H as [|x l v Px _ IH|x l v Px _ IH]; intros v' H'; inversion H'; subst;
    try contradiction; try reflexivity.
  - f_equal. apply IH. assumption.
  - apply IH. assumption.
Qed.

Lemma Selected_StronglySorted (R : A -> A -> Prop) (l v : list A) :
  Selected P l v -> StronglySorted R l -> StronglySorted R v.
Proof.
  induction 1 as [|x l v Px Hs IH|x l v Px Hs IH]; intros Hl.
  - constructor.
  - inversion Hl as [|? ? Hl' Hx]; subst. constructor.
    + apply IH. exact Hl'.
    + rewrite Forall_forall in *. intros y Hy.
      apply Hx. apply (Selected_In _ _ Hs). exact Hy.
  - inversion Hl; subst. apply IH. assumption.
Qed.

End SelectedFacts.

Lemma date_le_trans : Relations_1.Transitive (fun a b : Row => date a <= date b).
Proof. intros a b c Hab Hbc. lia. Qed.

Lemma Selected_ascending (P : Row -> Prop) (l v : list Row) :
  Selected P l v -> ascending l -> ascending v.
Proof.
  unfold ascending. intros Hs Hl.
  apply StronglySorted_Sorted.
  apply (Selected_StronglySorted P _ l v Hs).
  apply Sorted_StronglySorted; [exact date_le_trans | exact Hl].
Qed.

Lemma select_date_mask_length (range : Z * Z) (l : list Row) :
  length (select l (date_mask range (map date l)))
  = count_in_range (fst range) (snd range) l.
Proof.
  unfold date_mask, series_and.
  induction l as [|r l IH]; simpl; [reflexivity|].
  destruct (Z_le_dec (fst range) (date r)) as [H1|H1];
    [destruct (Z_le_dec (date r) (snd range)) as [H2|H2]|].
  - rewrite (proj2 (Z.leb_le _ _) H1), (proj2 (Z.leb_le _ _) H2). simpl.
    f_equal. exact IH.
  - rewrite (proj2 (Z.leb_le _ _) H1), (proj2 (Z.leb_gt _ _)) by lia. simpl.
    exact IH.
  - rewrite (proj2 (Z.leb_gt _ _)) by lia. simpl. exact IH.
Qed.

Lemma select_as_filter (range : Z * Z) (l : list Row) :
  select l (date_mask range (map date l)) = rows_in_range range l.
Proof.
  unfold date_mask, series_and, rows_in_range, in_rangeb.
  induction l as [|r l IH]; [reflexivity|].
  cbn [map combine select filter fst snd]. rewrite IH. reflexivity.
Qed.

(** With two [Timestamp] the filter returns the selection of the mask. *)
Lemma filter_frame_timestamps (df : DataFrame) (range : Z * Z) :
  filter_frame df (timestamps range)
  = Py.Ok (getitem_mask df (date_mask range (col_date df))).
Proof. reflexivity. Qed.

(** With a [datetime.date] at either end it raises. *)
Lemma filter_frame_date (df : DataFrame) (range : scalar * scalar) :
  (exists d, fst range = Date d) \/ (exists d, snd range = Date d) ->
  filter_frame df range = Py.Raise invalid_comparison.
Proof.
  destruct range as [[a|a] [b|b]]; intros [[d H]|[d H]];
    try discriminate H; reflexivity.
Qed.

(** It returns a view for two [Timestamp] only. *)
Lemma filter_frame_ok (df : DataFrame) (range : scalar * scalar) (v : DataFrame) :
  filter_frame df range = Py.Ok v ->
  range = timestamps (days range)
  /\ v = getitem_mask df (date_mask (days range) (col_date df)).
Proof.
  destruct range as [[a|a] [b|b]]; cbn; intros H; try discriminate H.
  injection H as <-. split; reflexivity.
Qed.

Lemma filter_frame_raise (df : DataFrame) (range : scalar * scalar) (e : Py.exn) :
  filter_frame df range = Py.Raise e -> e = invalid_comparison.
Proof.
  destruct range as [[a|a] [b|b]]; cbn; intros H; try discriminate H;
    injection H as <-; reflexivity.
Qed.

Lemma getitem_mask_rows (df : DataFrame) (range : Z * Z) :
  rows (getitem_mask df (date_mask range (col_date df)))
  = rows_in_range range (rows df).
Proof. apply select_as_filter. Qed.

Lemma filter_frame_rows (df : DataFrame) (range : scalar * scalar) (v : DataFrame) :
  filter_frame df range = Py.Ok v ->
  rows v = rows_in_range (days range) (rows df).
Proof.
  intros H. apply filter_frame_ok in H as [_ ->]. apply getitem_mask_rows.
Qed.

Lemma rows_in_range_selected (range : Z * Z) (l : list Row) :
  Selected (in_range range) l (rows_in_range range l).
Proof. rewrite <- select_as_filter. apply select_date_mask. Qed.

Lemma rows_in_range_length (range : Z * Z) (l : list Row) :
  length (rows_in_range range l) = count_in_range (fst range) (snd range) l.
Proof. rewrite <- select_as_filter. apply select_date_mask_length. Qed.

(** Rows dated on consecutive days are in ascending order. *)
Lemma ascending_of_dates (l : list Row) (start : Z) (n : nat) :
  map date l = Calendar.date_range start n -> ascending l.
Proof.
  unfold Calendar.date_range, ascending. generalize 0%nat as k.
  revert l. induction n as [|n IH]; intros l k Hl.
  - destruct l; [constructor | discriminate].
  - destruct l as [|r l]; [discriminate|].
    cbn [seq map] in Hl. injection Hl as Hr Hl.
    constructor; [apply (IH l (S k) Hl)|].
    destruct l as [|r' l]; [constructor|].
    destruct n as [|n]; [discriminate|].
    cbn [seq map] in Hl. injection Hl as Hr' _.
    constructor. lia.
Qed.

Lemma fixture_dates :
  map date (rows Fixture.df)
  = Calendar.date_range (Calendar.days_from_civil 2023 1 1) 100.
Proof. vm_compute. reflexivity. Qed.

Lemma fixture_ascending : ascending (rows Fixture.df).
Proof. apply (ascending_of_dates _ _ _ fixture_dates). Qed.

Lemma fixture_after_2022 (r : Row) :
  In r (rows Fixture.df) ->
  date r < fst Fixture.before_start_days \/ snd Fixture.before_start_days < date r.
Proof.
  intros Hr. right.
  assert (Hd : In (date r) (map date (rows Fixture.df))) by (apply in_map; exact Hr).
  rewrite fixture_dates in Hd. unfold Calendar.date_range in Hd.
  apply in_map_iff in Hd as [k [<- _]].
  change (snd Fixture.before_start_days) with 18994.
  change (Calendar.days_from_civil 2023 1 1) with 19358. lia.
Qed.

(** C1, on the code.  The date range input delivers two [datetime.date];
    line 76 compares the [datetime64] column with them, and pandas
    refuses that comparison: for every table and every range picked in
    the input, the filter stage raises [TypeError] and no view is cached.
    The same lines applied to the [Timestamp] of the same days do what
    the claim says: they return exactly the rows dated in the inclusive
    range, in the order of the table (ascending by date when the table
    is), as many as the table has in the range, and no row when the range
    misses every date of the table. *)
Theorem filter_stage_on_dates (df : DataFrame) (first last : Z) (m : Metric) (w : nat) :
  let picked := Controls.input_date_range first last in
  let s := new_session {| date_range := picked; metric := m; window := w |} in
  filter_frame df picked = Py.Raise invalid_comparison
  /\ filtered_data df s = (Py.Raise invalid_comparison, s)
  /\ exists view,
       filter_frame df (Timestamp first, Timestamp last) = Py.Ok view
       /\ Selected (in_range (first, last)) (rows df) (rows view)
       /\ (forall r, In r (rows view) <-> In r (rows df) /\ first <= date r <= last)
       /\ length (rows view) = count_in_range first last (rows df)
       /\ (ascending (rows df) -> ascending (rows view))
       /\ ((forall r, In r (rows df) -> date r < first \/ last < date r)
           -> rows view = []).
Proof.
  intros picked s.
  split; [reflexivity|]. split; [reflexivity|].
  eexists. split; [apply (filter_frame_timestamps df (first, last))|].
  rewrite getitem_mask_rows.
  pose proof (rows_in_range_selected (first, last) (rows df)) as Hsel.
  split; [exact Hsel|].
  split; [exact (Selected_In _ _ _ Hsel)|].
  split; [apply (rows_in_range_length (first, last))|].
  split; [exact (Selected_ascending _ _ _ Hsel)|].
  intros Hout. apply (Selected_none _ _ _ Hsel).
  intros r Hr [Hlo Hhi]. cbn [fst snd] in *. destruct (Hout r Hr); lia.
Qed.

Lemma filter_stage_on_dates_witness :
  let first := fst Fixture.before_start_days in
  let last := snd Fixture.before_start_days in
  let s := Fixture.session (Controls.input_date_range first last) Sales 7 in
  ascending (rows Fixture.df)
  /\ (forall r, In r (rows Fixture.df) -> date r < first \/ last < date r)
  /\ filtered_data Fixture.df s = (Py.Raise invalid_comparison, s)
  /\ exists view,
       filter_frame Fixture.df (Timestamp first, Timestamp last) = Py.Ok view
       /\ ascending (rows view)
       /\ rows view = [].
Proof.
  intros first last s.
  destruct (filter_stage_on_dates Fixture.df first last Sales 7)
    as (_ & Hrun & view & Hview & _ & _ & _ & Hasc & Hout).
  split; [exact fixture_ascending|].
  split; [exact fixture_after_2022|].
  split; [exact Hrun|].
  exists view. split; [exact Hview|].
  split; [exact (Hasc fixture_ascending) | exact (Hout fixture_after_2022)].
Defined.

Lemma date_mask_all_true (range : Z * Z) (l : list Row) :
  (forall r, In r l -> in_range range r) ->
  date_mask range (map date l) = repeat true (length l).
Proof.
  unfold date_mask, series_and, in_range.
  induction l as [|r l IH]; intros Hall; simpl; [reflexivity|].
  destruct (Hall r (or_introl eq_refl)) as [Hlo Hhi].
  rewrite (proj2 (Z.leb_le _ _) Hlo), (proj2 (Z.leb_le _ _) Hhi). simpl.
  f_equal. apply IH. intros y Hy. apply Hall. right. exact Hy.
Qed.

Lemma select_all_true {A : Type} (l : list A) (n : nat) :
  (length l <= n)%nat -> select l (repeat true n) = l.
Proof.
  revert n. induction l as [|x l IH]; intros [|n] Hn; simpl in *;
    try reflexivity; try lia.
  f_equal. apply IH. lia.
Qed.

Lemma select_length {A B : Type} (l : list A) (l' : list B) (mask : list bool) :
  length l = length l' -> length (select l mask) = length (select l' mask).
Proof.
  revert l' mask. induction l as [|x l IH]; intros [|y l'] mask Hlen;
    simpl in *; try discriminate; try reflexivity.
  destruct mask as [|[|] mask]; simpl; auto.
Qed.

Lemma rows_in_range_in_range (range : Z * Z) (l : list Row) (r : Row) :
  In r (rows_in_range range l) -> in_range range r.
Proof.
  intros Hr. apply (Selected_In _ _ _ (rows_in_range_selected range l)) in Hr.
  tauto.
Qed.

Lemma getitem_mask_fixed (f : DataFrame) (range : Z * Z) :
  (forall r, In r (rows f) -> in_range range r) ->
  rows (getitem_mask f (date_mask range (col_date f))) = rows f
  /\ (well_formed f -> getitem_mask f (date_mask range (col_date f)) = f).
Proof.
  intros Hall.
  unfold getitem_mask, col_date.
  rewrite (date_mask_all_true range (rows f) Hall). cbn [rows].
  split; [apply select_all_true; lia|].
  intros Hwf. destruct f as [rs ex]. cbn [rows extra] in *.
  rewrite select_all_true by lia. f_equal.
  unfold well_formed in Hwf. cbn [rows extra] in Hwf.
  induction Hwf as [|[k c] ex Hc _ IH]; simpl; [reflexivity|].
  f_equal; [|exact IH].
  f_equal. apply select_all_true. cbn [snd] in Hc. lia.
Qed.

Lemma getitem_mask_well_formed (df : DataFrame) (mask : list bool) :
  well_formed df -> well_formed (getitem_mask df mask).
Proof.
  unfold well_formed, getitem_mask. cbn [rows extra].
  intros Hwf. rewrite Forall_forall in *.
  intros c Hc. apply in_map_iff in Hc as [c0 [<- Hc0]]. cbn [snd].
  apply select_length. apply Hwf. exact Hc0.
Qed.

Lemma filter_frame_well_formed (df : DataFrame) (range : scalar * scalar) (v : DataFrame) :
  well_formed df -> filter_frame df range = Py.Ok v -> well_formed v.
Proof.
  intros Hwf H. apply filter_frame_ok in H as [_ ->].
  apply getitem_mask_well_formed. exact Hwf.
Qed.

(** C7. Filtering is idempotent: the filter applied with the same range
    to an already filtered view returns the rows of that view, and the
    whole view when the added columns of the table are as long as its
    rows. *)
Theorem filter_idempotent
    (df : DataFrame) (range : scalar * scalar) (view : DataFrame) :
  filter_frame df range = Py.Ok view ->
  exists again,
    filter_frame view range = Py.Ok again
    /\ rows again = rows view
    /\ (well_formed df -> again = view).
Proof.
  intros Hview.
  pose proof (filter_frame_rows df range view Hview) as Hrows.
  destruct (filter_frame_ok df range view Hview) as [Hrange Hv].
  destruct (getitem_mask_fixed view (days range)) as [Hfix Hframe].
  { intros r Hr. rewrite Hrows in Hr.
    apply (rows_in_range_in_range _ _ _ Hr). }
  exists (getitem_mask view (date_mask (days range) (col_date view))).
  split; [rewrite Hrange at 1; apply filter_frame_timestamps|].
  split; [exact Hfix|].
  intros Hwf. apply Hframe.
  apply (filter_frame_well_formed df range view Hwf Hview).
Qed.

Lemma filter_idempotent_witness :
  exists view again,
    filter_frame Fixture.df Fixture.first_ten = Py.Ok view
    /\ length (rows view) = 10%nat
    /\ well_formed Fixture.df
    /\ filter_frame view Fixture.first_ten = Py.Ok again
    /\ again = view.
Proof.
  assert (Hview : filter_frame Fixture.df Fixture.first_ten
                  = Py.Ok (Fixture.view Fixture.first_ten_days)) by reflexivity.
  assert (Hwf : well_formed Fixture.df) by constructor.
  destruct (filter_idempotent Fixture.df Fixture.first_ten _ Hview)
    as (again & Hagain & _ & Hsame).
  exists (Fixture.view Fixture.first_ten_days), again.
  split; [exact Hview|].
  split; [vm_compute; reflexivity|].
  split; [exact Hwf|].
  split; [exact Hagain | exact (Hsame Hwf)].
Defined.

(** The filter at the span of the table returns the table, row for row. *)
Lemma rows_in_range_full_span (range : Z * Z) (l : list Row) :
  (forall r, In r l -> in_range range r) -> rows_in_range range l = l.
Proof.
  intros Hall.
  apply (Selected_unique (in_range range) l).
  - apply rows_in_range_selected.
  - apply Selected_all. exact Hall.
Qed.

(** ** Reading the view *)

Lemma filtered_data_fst (df : DataFrame) (s : Session) :
  fst (filtered_data df s) = current_view df s.
Proof.
  unfold filtered_data, current_view.
  destruct (calc_value s); [reflexivity|].
  destruct (filter_frame df (date_range (inputs s))); reflexivity.
Qed.

Lemma filtered_data_ok (df : DataFrame) (s : Session) (view : DataFrame) :
  current_view df s = Py.Ok view ->
  filtered_data df s
  = (Py.Ok view, {| inputs := inputs s; calc_value := Some view |}).
Proof.
  unfold filtered_data, current_view. destruct s as [i [v|]]; cbn [calc_value inputs].
  - intros H. injection H as <-. reflexivity.
  - intros ->. reflexivity.
Qed.

Lemma filtered_data_raise (df : DataFrame) (s : Session) (e : Py.exn) :
  current_view df s = Py.Raise e -> filtered_data df s = (Py.Raise e, s).
Proof.
  unfold filtered_data, current_view. destruct s as [i [v|]]; cbn [calc_value inputs].
  - discriminate.
  - intros ->. reflexivity.
Qed.

(** An output first reads the view; when the read raises, so does the
    output, and the session is as it was. *)
Lemma bind_filtered_data {A : Type} (df : DataFrame) (k : DataFrame -> M A)
    (s : Session) :
  bind (filtered_data df) k s
  = match current_view df s with
    | Py.Ok view => k view {| inputs := inputs s; calc_value := Some view |}
    | Py.Raise e => (Py.Raise e, s)
    end.
Proof.
  unfold bind. destruct (current_view df s) as [view|e] eqn:E.
  - rewrite (filtered_data_ok df s view E). reflexivity.
  - rewrite (filtered_data_raise df s e E). reflexivity.
Qed.

Lemma current_view_cached (df : DataFrame) (i : Inputs) (v : DataFrame) :
  current_view df {| inputs := i; calc_value := Some v |} = Py.Ok v.
Proof. reflexivity. Qed.

Lemma current_view_raise (df : DataFrame) (s : Session) (e : Py.exn) :
  current_view df s = Py.Raise e -> e = invalid_comparison.
Proof.
  unfold current_view. destruct (calc_value s); [discriminate|].
  apply filter_frame_raise.
Qed.

(** ** Columns added by item assignment *)

Lemma assoc_get_set_same {V : Type} (k : string) (v : V) (l : list (string * V)) :
  assoc_get k (assoc_set k v l) = Some v.
Proof.
  induction l as [|[k' v'] l IH]; simpl.
  - rewrite String.eqb_refl. reflexivity.
  - destruct (String.eqb k k') eqn:E; simpl.
    + rewrite String.eqb_refl. reflexivity.
    + rewrite E. exact IH.
Qed.

Lemma assoc_get_set_other {V : Type} (k k0 : string) (v : V) (l : list (string * V)) :
  k0 <> k -> assoc_get k0 (assoc_set k v l) = assoc_get k0 l.
Proof.
  intros Hne. induction l as [|[k' v'] l IH]; simpl.
  - destruct (String.eqb_spec k0 k); [contradiction | reflexivity].
  - destruct (String.eqb_spec k k') as [->|Hk]; simpl.
    + destruct (String.eqb_spec k0 k'); [contradiction | reflexivity].
    + destruct (String.eqb_spec k0 k'); [reflexivity | exact IH].
Qed.

(** ** The moving average *)

Lemma firstn_skipn_nth {A : Type} (d : A) (xs : list A) (s n : nat) :
  (s + n <= length xs)%nat ->
  firstn n (skipn s xs) = map (fun j => nth j xs d) (seq s n).
Proof.
  revert s n. induction xs as [|x xs IH]; intros s n Hlen; simpl in Hlen.
  - assert (s = O) by lia. assert (n = O) by lia. subst. reflexivity.
  - destruct s as [|s].
    + destruct n as [|n]; [reflexivity|].
      cbn [skipn firstn seq map nth]. f_equal.
      rewrite <- seq_shift, map_map.
      rewrite <- (IH O n) by lia. reflexivity.
    + cbn [skipn]. rewrite (IH s n) by lia.
      rewrite <- seq_shift, map_map. reflexivity.
Qed.

Lemma nth_error_map_seq {A : Type} (f : nat -> A) (n i : nat) :
  (i < n)%nat -> nth_error (map f (seq 0 n)) i = Some (f i).
Proof.
  intros Hi. rewrite nth_error_map, nth_error_seq.
  destruct (Nat.ltb_spec i n); [reflexivity | lia].
Qed.

Lemma rolling_mean_length (w : nat) (xs : list Q) :
  length (rolling_mean w xs) = length xs.
Proof. unfold rolling_mean. rewrite length_map, length_seq. reflexivity. Qed.

Lemma window_at_full (w i : nat) (xs : list Q) :
  (1 <= w)%nat -> (w - 1 <= i)%nat -> (i < length xs)%nat ->
  window_at w i xs = map (fun j => nth j xs 0%Q) (seq (i + 1 - w) w).
Proof.
  intros Hw Hi Hlen. unfold window_at.
  replace (i + 1 - (i + 1 - w))%nat with w by lia.
  apply firstn_skipn_nth. lia.
Qed.

Lemma window_at_short (w i : nat) (xs : list Q) :
  (i < w - 1)%nat -> (length (window_at w i xs) < w)%nat.
Proof.
  intros Hi. unfold window_at.
  replace (i + 1 - w)%nat with O by lia.
  rewrite length_firstn. cbn [skipn]. lia.
Qed.

Lemma rolling_mean_defined (w i : nat) (xs : list Q) :
  (1 <= w)%nat -> (w - 1 <= i)%nat -> (i < length xs)%nat ->
  nth_error (rolling_mean w xs) i
  = Some (Some (Qsum (map (fun j => nth j xs 0%Q) (seq (i + 1 - w) w))
                  / inject_Z (Z.of_nat w))%Q).
Proof.
  intros Hw Hi Hlen. unfold rolling_mean.
  rewrite nth_error_map_seq by exact Hlen. cbv zeta.
  rewrite (window_at_full w i xs Hw Hi Hlen).
  set (win := map _ (seq _ w)).
  assert (Hl : length win = w) by (unfold win; rewrite length_map, length_seq; reflexivity).
  rewrite Hl, Nat.leb_refl.
  unfold mean, Qlen. rewrite Hl.
  destruct win as [|x win']; [simpl in Hl; lia | reflexivity].
Qed.

Lemma rolling_mean_undefined (w i : nat) (xs : list Q) :
  (i < w - 1)%nat -> (i < length xs)%nat ->
  nth_error (rolling_mean w xs) i = Some None.
Proof.
  intros Hi Hlen. unfold rolling_mean.
  rewrite nth_error_map_seq by exact Hlen. cbv zeta.
  pose proof (window_at_short w i xs Hi) as Hshort.
  destruct (Nat.leb_spec w (length (window_at w i xs))); [lia | reflexivity].
Qed.

Lemma rolling_mean_all_undefined (w : nat) (xs : list Q) :
  (length xs < w)%nat -> rolling_mean w xs = repeat None (length xs).
Proof.
  intros Hlen.
  apply nth_error_ext. intros i.
  destruct (Nat.lt_ge_cases i (length xs)) as [Hi|Hi].
  - rewrite rolling_mean_undefined by lia.
    rewrite nth_error_repeat by exact Hi. reflexivity.
  - rewrite (proj2 (nth_error_None _ _)) by (rewrite rolling_mean_length; exact Hi).
    rewrite (proj2 (nth_error_None _ _)) by (rewrite repeat_length; exact Hi).
    reflexivity.
Qed.

Lemma trend_plot_run (df : DataFrame) (s : Session) (view : DataFrame) :
  current_view df s = Py.Ok view ->
  let m := metric (inputs s) in
  let w := window (inputs s) in
  let ma := rolling_mean w (getitem view m) in
  trend_plot df s
  = (Py.Ok {| fig_lines :=
                [ {| line_x := col_date view;
                     line_y := map Some (getitem view m);
                     line_label := "Daily" |};
                  {| line_x := col_date view;
                     line_y := ma;
                     line_label :=
                       (string_of_list_ascii (Fmt.decimal (N.of_nat w))
                          ++ "-day MA")%string |} ];
              fig_title := (Fmt.title (metric_key m) ++ " Over Time")%string |},
     {| inputs := inputs s; calc_value := Some (setitem view "ma" ma) |}).
Proof.
  intros Hview. unfold trend_plot. rewrite bind_filtered_data, Hview.
  cbn. destruct (metric (inputs s)); reflexivity.
Qed.

Lemma trend_plot_raise (df : DataFrame) (s : Session) (e : Py.exn) :
  current_view df s = Py.Raise e -> trend_plot df s = (Py.Raise e, s).
Proof.
  intros Hview. unfold trend_plot. rewrite bind_filtered_data, Hview. reflexivity.
Qed.

Lemma rolling_mean_trailing (w : nat) (xs : list Q) :
  (1 <= w)%nat -> trailing_average w xs (rolling_mean w xs).
Proof.
  intros Hw. unfold trailing_average, window_values.
  split; [apply rolling_mean_length|].
  split; [|apply rolling_mean_all_undefined].
  intros i Hi.
  split; [|split].
  - split.
    + intros [v Hv]. destruct (Nat.lt_ge_cases i (w - 1)) as [Hlt|Hge]; [|exact Hge].
      rewrite rolling_mean_undefined in Hv by assumption. discriminate.
    + intros Hge. eexists. apply rolling_mean_defined; assumption.
  - intros Hge. apply rolling_mean_defined; assumption.
  - intros Hlt. apply rolling_mean_undefined; assumption.
Qed.

(** The column read for a metric holds the value of the metric on each
    row of the view, in order. *)
Lemma getitem_metric_values (view : DataFrame) (m : Metric) :
  getitem view m = map (metric_value m) (rows view).
Proof.
  destruct m; unfold getitem, col_sales, col_users, col_conversion;
    rewrite ?map_map; reflexivity.
Qed.

(** C3. For every view, metric and window size [w] in [1,30], the trend
    plot draws the values of the selected metric on the rows of the view
    and their moving average: the average is defined at position [i]
    exactly when [w - 1 <= i], where it is the arithmetic mean of the
    values of the metric on the rows [i-w+1 .. i]; the other positions
    are undefined, all of them when [w] exceeds the length of the view.
    The same series is what the plot leaves in the column [ma] of the
    view. *)
Theorem moving_average_positions (df : DataFrame) (s : Session) (view : DataFrame) :
  current_view df s = Py.Ok view ->
  let xs := map (metric_value (metric (inputs s))) (rows view) in
  let w := window (inputs s) in
  (1 <= w <= 30)%nat ->
  exists fig ma view',
    fst (trend_plot df s) = Py.Ok fig
    /\ plots fig (map Some xs) ma
    /\ trailing_average w xs ma
    /\ calc_value (snd (trend_plot df s)) = Some view'
    /\ assoc_get "ma" (extra view') = Some ma.
Proof.
  intros Hview xs w [Hw _].
  rewrite (trend_plot_run df s view Hview). cbn [fst snd calc_value].
  rewrite getitem_metric_values. fold xs. fold w.
  eexists. exists (rolling_mean w xs). eexists.
  split; [reflexivity|].
  split.
  - unfold plots. do 2 eexists. cbn [fig_lines line_y]. repeat split.
  - split; [apply rolling_mean_trailing; exact Hw|].
    split; [reflexivity|].
    cbn [setitem extra]. apply assoc_get_set_same.
Qed.

Lemma moving_average_positions_witness :
  let s := Fixture.session Fixture.first_ten Users 7 in
  let view := Fixture.view Fixture.first_ten_days in
  let xs := map (fun r => inject_Z (users r)) (rows view) in
  current_view Fixture.df s = Py.Ok view
  /\ (1 <= 7 <= 30)%nat
  /\ length xs = 10%nat
  /\ exists fig ma view',
       fst (trend_plot Fixture.df s) = Py.Ok fig
       /\ plots fig (map Some xs) ma
       /\ trailing_average 7 xs ma
       /\ calc_value (snd (trend_plot Fixture.df s)) = Some view'
       /\ assoc_get "ma" (extra view') = Some ma.
Proof.
  intros s view xs.
  assert (Hview : current_view Fixture.df s = Py.Ok view) by reflexivity.
  assert (Hw : (1 <= 7 <= 30)%nat) by lia.
  split; [exact Hview|]. split; [exact Hw|].
  split; [vm_compute; reflexivity|].
  exact (moving_average_positions Fixture.df s view Hview Hw).
Defined.

Lemma mean_singleton (x : Q) : mean [x] = Some x.
Proof.
  unfold mean, Qsum, Qlen. cbn [fold_right length Z.of_nat].
  f_equal. destruct x as [n d].
  unfold Qdiv, Qmult, Qplus, Qinv, inject_Z. cbn [Qnum Qden].
  rewrite Z.mul_0_l, Z.add_0_r, !Z.mul_1_r, !Pos.mul_1_r. reflexivity.
Qed.

Lemma window_at_one (i : nat) (xs : list Q) :
  (i < length xs)%nat -> window_at 1 i xs = [nth i xs 0%Q].
Proof.
  intros Hi. rewrite window_at_full by lia.
  replace (i + 1 - 1)%nat with i by lia. reflexivity.
Qed.

Lemma rolling_mean_one (xs : list Q) : rolling_mean 1 xs = map Some xs.
Proof.
  apply nth_error_ext. intros i.
  destruct (Nat.lt_ge_cases i (length xs)) as [Hi|Hi].
  - unfold rolling_mean. rewrite nth_error_map_seq by exact Hi. cbv zeta.
    rewrite window_at_one by exact Hi. cbn [length Nat.leb].
    rewrite mean_singleton, nth_error_map.
    rewrite (nth_error_nth' xs 0%Q Hi). reflexivity.
  - rewrite (proj2 (nth_error_None _ _)) by (rewrite rolling_mean_length; exact Hi).
    rewrite (proj2 (nth_error_None _ _)) by (rewrite length_map; exact Hi).
    reflexivity.
Qed.

(** C6. With window size 1 the moving average equals the raw metric
    column of the view, position for position: the trend plot draws the
    same series twice, the values of the metric on the rows of the
    view. *)
Theorem moving_average_window_one
    (df : DataFrame) (range : scalar * scalar) (m : Metric)
    (cached : option DataFrame) (view : DataFrame) :
  let s := {| inputs := {| date_range := range; metric := m; window := 1 |};
              calc_value := cached |} in
  current_view df s = Py.Ok view ->
  let xs := getitem view m in
  rolling_mean 1 xs = map Some xs
  /\ xs = map (metric_value m) (rows view)
  /\ exists fig,
       fst (trend_plot df s) = Py.Ok fig
       /\ plots fig (map Some xs) (map Some xs).
Proof.
  intros s Hview xs.
  split; [apply rolling_mean_one|].
  split; [apply getitem_metric_values|].
  rewrite (trend_plot_run df s view Hview). cbn [fst].
  eexists. split; [reflexivity|].
  unfold plots. do 2 eexists. cbn [fig_lines line_y].
  split; [reflexivity|]. split; [reflexivity|].
  cbn [inputs metric window]. apply rolling_mean_one.
Qed.

Lemma moving_average_window_one_witness :
  let s := Fixture.session Fixture.first_ten Conversion 1 in
  let view := Fixture.view Fixture.first_ten_days in
  let xs := getitem view Conversion in
  current_view Fixture.df s = Py.Ok view
  /\ length xs = 10%nat
  /\ rolling_mean 1 xs = map Some xs
  /\ exists fig,
       fst (trend_plot Fixture.df s) = Py.Ok fig
       /\ plots fig (map Some xs) (map Some xs).
Proof.
  intros s view xs.
  assert (Hview : current_view Fixture.df s = Py.Ok view) by reflexivity.
  split; [exact Hview|].
  split; [vm_compute; reflexivity|].
  destruct (moving_average_window_one Fixture.df Fixture.first_ten Conversion
              None view Hview) as (Hone & _ & Hfig).
  split; [exact Hone | exact Hfig].
Defined.

(** The first ten days of the sample table, with the users and a window
    of seven days: ten rows, six undefined positions, then the mean of
    the first seven values. *)
Lemma moving_average_first_ten :
  let xs := getitem (Fixture.view Fixture.first_ten_days) Users in
  length xs = 10%nat
  /\ firstn 6 (rolling_mean 7 xs) = repeat None 6
  /\ nth_error (rolling_mean 7 xs) 6 = Some (mean (firstn 7 xs)).
Proof. vm_compute. repeat split. Qed.

(** ** Effects on the shared view *)

Lemma total_sales_run (df : DataFrame) (s : Session) (view : DataFrame) :
  current_view df s = Py.Ok view ->
  total_sales df s
  = (Py.bind (iloc_last (col_sales view))
       (fun last =>
          Py.Ok ("$" ++ Fmt.format_f true 0 (Float64.Finite last))%string),
     snd (filtered_data df s)).
Proof.
  intros Hview. unfold total_sales. rewrite bind_filtered_data, Hview.
  rewrite (filtered_data_ok df s view Hview). cbn [snd].
  unfold bind, lift, ret. destruct (iloc_last _); reflexivity.
Qed.

Lemma avg_users_run (lib : Library) (df : DataFrame) (s : Session) (view : DataFrame) :
  current_view df s = Py.Ok view ->
  avg_users lib df s
  = (Py.Ok (Fmt.format_f false 0 (series_mean lib (map inject_Z (col_users view)))),
     snd (filtered_data df s)).
Proof.
  intros Hview. unfold avg_users. rewrite bind_filtered_data, Hview.
  rewrite (filtered_data_ok df s view Hview). reflexivity.
Qed.

Lemma conv_rate_run (lib : Library) (df : DataFrame) (s : Session) (view : DataFrame) :
  current_view df s = Py.Ok view ->
  conv_rate lib df s
  = (Py.Ok (Fmt.format_percent 2 (series_mean lib (col_conversion view))),
     snd (filtered_data df s)).
Proof.
  intros Hview. unfold conv_rate. rewrite bind_filtered_data, Hview.
  rewrite (filtered_data_ok df s view Hview). reflexivity.
Qed.

Lemma summary_table_run (lib : Library) (df : DataFrame) (s : Session) (view : DataFrame) :
  current_view df s = Py.Ok view ->
  let described c := Describe.round_column 2 (Describe.describe_1d lib c) in
  summary_table lib df s
  = (Py.Ok {| sum_sales := described (col_sales view);
              sum_users := described (map inject_Z (col_users view));
              sum_conversion := described (col_conversion view) |},
     snd (filtered_data df s)).
Proof.
  intros Hview. unfold summary_table. rewrite bind_filtered_data, Hview.
  rewrite (filtered_data_ok df s view Hview). reflexivity.
Qed.

Lemma raw_data_run (df : DataFrame) (s : Session) (view : DataFrame) :
  current_view df s = Py.Ok view ->
  raw_data df s
  = (Py.Ok {| grid_data := view; row_selection_mode := "multiple" |},
     snd (filtered_data df s)).
Proof.
  intros Hview. unfold raw_data. rewrite bind_filtered_data, Hview.
  rewrite (filtered_data_ok df s view Hview). reflexivity.
Qed.

(** When the read of the view raises, every output raises the same
    exception and leaves the session as it was. *)
Lemma outputs_raise (lib : Library) (df : DataFrame) (s : Session) (e : Py.exn) :
  current_view df s = Py.Raise e ->
  total_sales df s = (Py.Raise e, s)
  /\ avg_users lib df s = (Py.Raise e, s)
  /\ conv_rate lib df s = (Py.Raise e, s)
  /\ trend_plot df s = (Py.Raise e, s)
  /\ summary_table lib df s = (Py.Raise e, s)
  /\ raw_data df s = (Py.Raise e, s).
Proof.
  intros Hview.
  unfold total_sales, avg_users, conv_rate, trend_plot, summary_table, raw_data.
  rewrite !bind_filtered_data, Hview. repeat split.
Qed.

(** An output that only reads the view leaves the session as the read
    leaves it. *)
Lemma readers_leave_view (lib : Library) (df : DataFrame) (s : Session) :
  leaves_view_unchanged df (total_sales df) s
  /\ leaves_view_unchanged df (avg_users lib df) s
  /\ leaves_view_unchanged df (conv_rate lib df) s
  /\ leaves_view_unchanged df (summary_table lib df) s
  /\ leaves_view_unchanged df (raw_data df) s.
Proof.
  unfold leaves_view_unchanged.
  destruct (current_view df s) as [view|e] eqn:Hview.
  - rewrite (total_sales_run df s view Hview), (avg_users_run lib df s view Hview),
      (conv_rate_run lib df s view Hview), (summary_table_run lib df s view Hview),
      (raw_data_run df s view Hview).
    repeat split.
  - destruct (outputs_raise lib df s e Hview) as (-> & -> & -> & _ & -> & ->).
    rewrite (filtered_data_raise df s e Hview). repeat split.
Qed.

(** C4, as stated, fails: the trend plot assigns the column [ma] on the
    shared view.  On the first ten days of the sample table the view has
    four columns when the reactive calculation returns it and five after
    the trend plot, and the raw data grid that reads it next shows the
    fifth. *)
Lemma trend_plot_mutates_view :
  let s := Fixture.session Fixture.first_ten Users 7 in
  ~ leaves_view_unchanged Fixture.df (trend_plot Fixture.df) s
  /\ option_map columns (calc_value (snd (filtered_data Fixture.df s)))
     = Some ["date"; "sales"; "users"; "conversion"]%string
  /\ option_map columns (calc_value (snd (trend_plot Fixture.df s)))
     = Some ["date"; "sales"; "users"; "conversion"; "ma"]%string
  /\ (exists grid,
        fst (raw_data Fixture.df (snd (trend_plot Fixture.df s))) = Py.Ok grid
        /\ columns (grid_data grid)
           = ["date"; "sales"; "users"; "conversion"; "ma"]%string).
Proof.
  intros s.
  assert (Hview : current_view Fixture.df s
                  = Py.Ok (Fixture.view Fixture.first_ten_days)) by reflexivity.
  assert (H5 : option_map columns (calc_value (snd (trend_plot Fixture.df s)))
               = Some ["date"; "sales"; "users"; "conversion"; "ma"]%string).
  { rewrite (trend_plot_run _ _ _ Hview). reflexivity. }
  assert (H4 : option_map columns (calc_value (snd (filtered_data Fixture.df s)))
               = Some ["date"; "sales"; "users"; "conversion"]%string).
  { rewrite (filtered_data_ok _ _ _ Hview). reflexivity. }
  split; [|split; [exact H4|split; [exact H5|]]].
  - unfold leaves_view_unchanged. intros Heq.
    rewrite Heq, H4 in H5. discriminate H5.
  - rewrite (trend_plot_run _ _ _ Hview). cbn [snd].
    rewrite (raw_data_run _ _ _ (current_view_cached _ _ _)). cbn [fst].
    eexists. split; [reflexivity|]. reflexivity.
Qed.

(** C4, amended.  The value boxes, the summary table and the raw data
    grid leave the shared view as the reactive calculation returned it.
    The trend plot assigns the moving average to the column [ma] of that
    view, in place: the rows and every other column stay as they were.
    A change of the date range invalidates the cached view, and the next
    read runs the filter on the table anew. *)
Theorem view_frame_conditions (lib : Library) (df : DataFrame) (s : Session) :
  leaves_view_unchanged df (total_sales df) s
  /\ leaves_view_unchanged df (avg_users lib df) s
  /\ leaves_view_unchanged df (conv_rate lib df) s
  /\ leaves_view_unchanged df (summary_table lib df) s
  /\ leaves_view_unchanged df (raw_data df) s
  /\ (forall view, current_view df s = Py.Ok view ->
      exists view',
        current_view df (snd (trend_plot df s)) = Py.Ok view'
        /\ rows view' = rows view
        /\ assoc_get "ma" (extra view')
           = Some (rolling_mean (window (inputs s)) (getitem view (metric (inputs s))))
        /\ forall name, name <> "ma"%string ->
             assoc_get name (extra view') = assoc_get name (extra view))
  /\ (forall i, range_eqb (date_range i) (date_range (inputs s)) = false ->
        fst (filtered_data df (set_inputs i s)) = filter_frame df (date_range i)).
Proof.
  destruct (readers_leave_view lib df s) as (H1 & H2 & H3 & H4 & H5).
  split; [exact H1|]. split; [exact H2|]. split; [exact H3|].
  split; [exact H4|]. split; [exact H5|].
  split.
  - intros view Hview. rewrite (trend_plot_run df s view Hview).
    cbn [snd current_view calc_value].
    eexists. split; [reflexivity|]. cbn [setitem rows extra].
    split; [reflexivity|].
    split; [apply assoc_get_set_same|].
    intros name Hne. apply assoc_get_set_other. exact Hne.
  - intros i Hi. rewrite filtered_data_fst.
    unfold current_view, set_inputs. cbn [calc_value inputs]. rewrite Hi.
    reflexivity.
Qed.

Lemma view_frame_conditions_witness :
  let s := snd (trend_plot Fixture.df (Fixture.session Fixture.first_ten Users 7)) in
  let i := {| date_range := Fixture.before_start; metric := Users; window := 7 |} in
  range_eqb (date_range i) (date_range (inputs s)) = false
  /\ fst (filtered_data Fixture.df (set_inputs i s))
     = filter_frame Fixture.df (date_range i)
  /\ (exists view view',
        current_view Fixture.df s = Py.Ok view
        /\ current_view Fixture.df (snd (trend_plot Fixture.df s)) = Py.Ok view'
        /\ rows view' = rows view)
  /\ leaves_view_unchanged Fixture.df (raw_data Fixture.df) s.
Proof.
  intros s i.
  assert (Hs : s = {| inputs := inputs (Fixture.session Fixture.first_ten Users 7);
                      calc_value :=
                        Some (setitem (Fixture.view Fixture.first_ten_days) "ma"
                                (rolling_mean 7
                                   (getitem (Fixture.view Fixture.first_ten_days)
                                      Users))) |}).
  { unfold s. rewrite (trend_plot_run Fixture.df _ (Fixture.view Fixture.first_ten_days));
      reflexivity. }
  assert (Hr : range_eqb (date_range i) (date_range (inputs s)) = false).
  { rewrite Hs. reflexivity. }
  assert (Hview : exists view, current_view Fixture.df s = Py.Ok view).
  { rewrite Hs. eexists. reflexivity. }
  destruct Hview as [view Hview].
  destruct (view_frame_conditions Fixture.lib Fixture.df s)
    as (_ & _ & _ & _ & Hraw & Hplot & Hfresh).
  destruct (Hplot view Hview) as (view' & Hview' & Hrows & _).
  split; [exact Hr|]. split; [exact (Hfresh i Hr)|].
  split; [exists view, view'; repeat split; assumption | exact Hraw].
Defined.

(** ** The value boxes on an empty view *)

(** C2, on the code.  When the view has no row, [total_sales] raises
    [IndexError] at [iloc[-1]], while [avg_users] and [conv_rate] return
    the texts of a NaN mean. *)
Theorem empty_view_value_boxes
    (lib : Library) (df : DataFrame) (s : Session) (view : DataFrame) :
  current_view df s = Py.Ok view ->
  rows view = [] ->
  fst (total_sales df s)
  = Py.Raise (Py.IndexError "single positional indexer is out-of-bounds")
  /\ fst (avg_users lib df s) = Py.Ok "nan"%string
  /\ fst (conv_rate lib df s) = Py.Ok "nan%"%string.
Proof.
  intros Hview Hempty.
  rewrite (total_sales_run df s view Hview), (avg_users_run lib df s view Hview),
    (conv_rate_run lib df s view Hview).
  unfold col_sales, col_users, col_conversion. rewrite Hempty.
  repeat split.
Qed.

Lemma empty_view_value_boxes_witness :
  let s := Fixture.session Fixture.before_start Sales 7 in
  let view := Fixture.view Fixture.before_start_days in
  current_view Fixture.df s = Py.Ok view
  /\ rows view = []
  /\ fst (total_sales Fixture.df s)
     = Py.Raise (Py.IndexError "single positional indexer is out-of-bounds")
  /\ fst (avg_users Fixture.lib Fixture.df s) = Py.Ok "nan"%string
  /\ fst (conv_rate Fixture.lib Fixture.df s) = Py.Ok "nan%"%string.
Proof.
  intros s view.
  assert (Hview : current_view Fixture.df s = Py.Ok view) by reflexivity.
  assert (H : rows view = []) by (vm_compute; reflexivity).
  split; [exact Hview|]. split; [exact H|].
  apply (empty_view_value_boxes Fixture.lib Fixture.df s view Hview H).
Defined.

(** ** The sample data *)

Lemma sample_length {G A : Type} (n : nat) (draw : G -> A * G) (g : G) :
  length (fst (Random.sample n draw g)) = n.
Proof.
  revert g. induction n as [|n IH]; intros g; simpl; [reflexivity|].
  destruct (draw g) as [x g1]. specialize (IH g1).
  destruct (Random.sample n draw g1) as [xs g2]. simpl in *. f_equal. exact IH.
Qed.

Lemma sample_Forall {G A : Type} (P : A -> Prop) (n : nat) (draw : G -> A * G) (g : G) :
  (forall g0, P (fst (draw g0))) -> Forall P (fst (Random.sample n draw g)).
Proof.
  intros HP. revert g. induction n as [|n IH]; intros g; simpl; [constructor|].
  pose proof (HP g) as Hx. destruct (draw g) as [x g1]. specialize (IH g1).
  destruct (Random.sample n draw g1) as [xs g2]. simpl in *.
  constructor; assumption.
Qed.

Lemma cumsum_from_length (acc : Q) (l : list Q) :
  length (cumsum_from acc l) = length l.
Proof.
  revert acc. induction l as [|x l IH]; intros acc; simpl; [reflexivity|].
  f_equal. apply IH.
Qed.

Lemma cumsum_length (l : list Q) : length (cumsum l) = length l.
Proof. destruct l; simpl; [reflexivity|]. f_equal. apply cumsum_from_length. Qed.

Lemma cumsum_from_nth (acc : Q) (l : list Q) (i : nat) :
  (i < length l)%nat ->
  (nth i (cumsum_from acc l) 0 == acc + Qsum (firstn (S i) l))%Q.
Proof.
  revert acc i. induction l as [|x l IH]; intros acc i Hi; simpl in Hi; [lia|].
  destruct i as [|i].
  - cbn [cumsum_from nth firstn Qsum fold_right]. ring.
  - cbn [cumsum_from nth]. rewrite IH by lia.
    change (firstn (S (S i)) (x :: l)) with (x :: firstn (S i) l).
    cbn [Qsum fold_right]. fold (Qsum (firstn (S i) l)). ring.
Qed.

(** Every entry of a cumulative sum is the sum of the terms up to it. *)
Lemma cumsum_nth (l : list Q) (i : nat) :
  (i < length l)%nat -> (nth i (cumsum l) 0 == Qsum (firstn (S i) l))%Q.
Proof.
  destruct l as [|x l]; intros Hi; simpl in Hi; [lia|].
  destruct i as [|i].
  - cbn [cumsum nth firstn Qsum fold_right]. ring.
  - cbn [cumsum nth]. rewrite cumsum_from_nth by lia.
    change (firstn (S (S i)) (x :: l)) with (x :: firstn (S i) l).
    cbn [Qsum fold_right]. reflexivity.
Qed.

Lemma frame_rows_columns (d : list Z) (s : list Q) (u : list Z) (c : list Q) :
  length s = length d -> length u = length d -> length c = length d ->
  map date (frame_rows d s u c) = d
  /\ map sales (frame_rows d s u c) = s
  /\ map users (frame_rows d s u c) = u
  /\ map conversion (frame_rows d s u c) = c.
Proof.
  revert s u c. induction d as [|d0 d IH]; intros [|s0 s] [|u0 u] [|c0 c] Hs Hu Hc;
    simpl in *; try discriminate; try (repeat split; reflexivity).
  destruct (IH s u c) as (Hd & Hs' & Hu' & Hc'); try lia.
  repeat split; f_equal; assumption.
Qed.

(** C8. The generator first seeds the pseudo-random generator with 123,
    so its result does not depend on the earlier state: two runs give the
    same table.  The table has 100 rows dated on consecutive days from
    2023-01-01 (ascending, ending on 2023-04-10); its sales are the
    cumulative sums of 100 draws of normal(1000, 200), its users the next
    100 draws of Poisson(500), its conversion rates the next 100 draws of
    uniform(0.01, 0.05), which lie in that interval. *)
Theorem create_sample_data_contract
    {G : Type} `{Random.Supported G} (g : G) :
  generated_table (fst (create_sample_data g))
  /\ forall g', create_sample_data g' = create_sample_data g.
Proof.
  split; [|reflexivity].
  set (data := fst (create_sample_data g)).
  cbv beta delta [generated_table].
  intros start s u c.
  pose proof (sample_length 100 (Random.normal 1000 200) (Random.seed 123)) as Ls.
  pose proof (sample_length 100 (Random.poisson 500) (snd s)) as Lu.
  pose proof (sample_length 100 (Random.uniform (1 # 100) (5 # 100)) (snd u)) as Lc.
  fold s in Ls. fold u in Lu. fold c in Lc.
  assert (Hdata : data = {| rows := frame_rows (Calendar.date_range start 100)
                                      (cumsum (fst s)) (fst u) (fst c);
                            extra := [] |}).
  { unfold data, create_sample_data. fold start. fold s.
    destruct s as [s0 g1] eqn:Es. cbn [snd] in u. fold u.
    destruct u as [u0 g2] eqn:Eu. cbn [snd] in c. fold c.
    destruct c as [c0 g3] eqn:Ec. reflexivity. }
  assert (Ld : length (Calendar.date_range start 100) = 100%nat).
  { unfold Calendar.date_range. rewrite length_map, length_seq. reflexivity. }
  destruct (frame_rows_columns (Calendar.date_range start 100)
              (cumsum (fst s)) (fst u) (fst c)) as (Hd & Hs & Hu & Hc).
  { rewrite cumsum_length. congruence. }
  { congruence. }
  { congruence. }
  unfold col_date, col_sales, col_users, col_conversion.
  rewrite Hdata. cbn [rows extra].
  rewrite Hd, Hs, Hu, Hc.
  split; [rewrite <- (length_map date), Hd; exact Ld|].
  split; [reflexivity|].
  split; [reflexivity|].
  split; [apply (ascending_of_dates _ start 100 Hd)|].
  split; [reflexivity|].
  split; [intros i Hi; apply cumsum_nth; lia|].
  split; [reflexivity|].
  split; [apply sample_Forall; intros g0; apply Random.poisson_nonneg|].
  split; [reflexivity|].
  split; [|reflexivity].
  apply sample_Forall. intros g0.
  destruct (Random.uniform_range (1 # 100) (5 # 100) g0) as [Hlo Hhi];
    [reflexivity|].
  split; [exact Hlo | apply Qlt_le_weak; exact Hhi].
Qed.

#[global] Instance lcg_supported : Random.Supported Z.
Proof.
  split.
  - intros lam g. cbn. lia.
  - intros low high g Hlt. cbn [Random.uniform Random.lcg fst].
    set (k := Random.lcg_next g).
    assert (Hk : 0 <= k < 2147483648)
      by (unfold k, Random.lcg_next; apply Z.mod_pos_bound; lia).
    assert (H0 : (0 <= k # 2147483648)%Q) by (unfold Qle; cbn; lia).
    assert (H1 : (k # 2147483648 < 1)%Q) by (unfold Qlt; cbn; lia).
    split; nra.
Qed.

Lemma create_sample_data_contract_witness :
  Random.Supported Z
  /\ generated_table (fst (create_sample_data (G := Z) 0))
  /\ forall g', create_sample_data (G := Z) g' = create_sample_data 0.
Proof.
  split; [exact lcg_supported|].
  apply (create_sample_data_contract (G := Z) (H0 := lcg_supported) 0).
Defined.

(** ** The server function *)

Lemma mem_In (x : string) (l : list string) :
  Scope.mem x l = true <-> In x l.
Proof.
  unfold Scope.mem. rewrite existsb_exists. split.
  - intros [y [Hy E]]. apply String.eqb_eq in E. subst. exact Hy.
  - intros H. exists x. split; [exact H | apply String.eqb_refl].
Qed.

Lemma reactive_not_in (l : list string) :
  Scope.mem "reactive" l = false -> ~ In "reactive"%string l.
Proof. intros Hmem Hin. apply mem_In in Hin. congruence. Qed.

(** C10. A call of the server function raises [NameError] for the name
    [reactive] at its first statement, before any output is registered:
    no statement of the module binds that name, it is not a built-in and
    it is not a parameter of the function.  With the name bound to the
    module [shiny.reactive], the same call registers the six outputs. *)
Theorem server_raises_name_error :
  Scope.server Scope.module_globals
  = (Py.Raise (Py.NameError "reactive"),
     {| Scope.locals := Scope.parameters; Scope.registered := [] |})
  /\ map fst Scope.parameters = ["input"; "output"; "session"]%string
  /\ ~ In "reactive"%string
       (map fst Scope.module_globals ++ Scope.builtins
          ++ map fst Scope.parameters)
  /\ (forall d, In d Scope.server_body ->
        ~ In (Scope.def_name d)
            (map fst (Scope.locals (snd (Scope.server Scope.module_globals)))))
  /\ (let (r, f) :=
        Scope.server (("reactive"%string, Scope.shiny_reactive)
                        :: Scope.module_globals) in
      r = Py.Ok tt
      /\ Scope.registered f
         = ["total_sales"; "avg_users"; "conv_rate"; "trend_plot";
            "summary_table"; "raw_data"]%string).
Proof.
  split; [reflexivity|].
  split; [reflexivity|].
  split; [apply reactive_not_in; reflexivity|].
  split; [|split; reflexivity].
  intros d Hd. cbn in Hd.
  repeat (destruct Hd as [<-|Hd]; [cbn; intuition discriminate|]).
  contradiction.
Qed.
(** ** Number formatting *)

Module FmtFacts.

Import Fmt.




















Lemma hd_rev {A : Type} (l : list A) (d0 : A) : hd d0 (rev l) = last l d0.
Proof.
  induction l as [|x l IH]; [reflexivity|].
  cbn [rev]. destruct l as [|y l]; [reflexivity|].
  change (last (x :: y :: l) d0) with (last (y :: l) d0). rewrite <- IH.
  destruct (rev (y :: l)) eqn:E; [|reflexivity].
  apply (f_equal (@length A)) in E. rewrite length_rev in E. discriminate.
Qed.































End FmtFacts.

(** ** Floats *)


Lemma Qsum_abs_nonneg (l : list Q) : (0 <= Qsum (map Qabs l))%Q.
Proof.
  induction l as [|x l IH]; [apply Qle_refl|].
  cbn [map Qsum fold_right]. fold (Qsum (map Qabs l)).
  pose proof (Qabs_nonneg x). lra.
Qed.

Module Float64Facts.

Import Float64.

Lemma round_half_even_comp (p q : Q) :
  (p == q)%Q -> round_half_even p = round_half_even q.
Proof.
  intros E. unfold round_half_even.
  rewrite (Qfloor_comp _ _ E).
  assert (Ec : Qcompare (p - inject_Z (Qfloor q)) (1 # 2)
               = Qcompare (q - inject_Z (Qfloor q)) (1 # 2)).
  { apply Qcompare_comp; [rewrite E; reflexivity | reflexivity]. }
  rewrite Ec. reflexivity.
Qed.

Lemma round_half_even_integer (q : Q) (z : Z) :
  (q == inject_Z z)%Q -> round_half_even q = z.
Proof.
  intros Hq. unfold round_half_even.
  rewrite (Qfloor_comp _ _ Hq), Qfloor_Z.
  assert (E : Qcompare (q - inject_Z z) (1 # 2) = Lt).
  { apply Qlt_alt. setoid_replace (q - inject_Z z)%Q with 0%Q by (rewrite Hq; ring).
    reflexivity. }
  rewrite E. reflexivity.
Qed.

Lemma Qred_inject_Z (z : Z) : Qred (inject_Z z) = inject_Z z.
Proof.
  unfold Qred, inject_Z.
  pose proof (Z.ggcd_gcd z 1) as Hg.
  pose proof (Z.ggcd_correct_divisors z 1) as Hd.
  destruct (Z.ggcd z 1) as [g [a b]]. cbn [fst snd] in *.
  rewrite Z.gcd_1_r in Hg. subst g. destruct Hd as [Ha Hb].
  rewrite Z.mul_1_l in Ha, Hb. subst a. rewrite <- Hb. reflexivity.
Qed.

(** The rounding depends on the number, not on the fraction that
    denotes it. *)
Lemma round_comp (x y : Q) : (x == y)%Q -> round x = round y.
Proof. intros E. unfold round. rewrite (Qred_complete x y E). reflexivity. Qed.

Lemma pow2_nonpos (e : Z) :
  (e <= 0)%Z -> (pow2 e == / inject_Z (2 ^ (- e)))%Q.
Proof.
  intros He. unfold pow2. destruct (Z.leb_spec 0 e) as [H0|H0]; [|reflexivity].
  assert (e = 0)%Z by lia. subst e. reflexivity.
Qed.

Lemma pow2_power_pos (n : Z) : (0 <= n)%Z -> (0 < inject_Z (2 ^ n))%Q.
Proof.
  intros Hn. change 0%Q with (inject_Z 0). rewrite <- Zlt_Qlt.
  apply Z.pow_pos_nonneg; lia.
Qed.

(** A whole number below [2^53] in magnitude is a float64. *)
Lemma round_integer (z : Z) :
  (Z.abs z < 2 ^ 53)%Z -> round (inject_Z z) = Finite (inject_Z z).
Proof.
  intros Hz. destruct (Z.eq_dec z 0) as [->|Hnz]; [reflexivity|].
  unfold round. rewrite Qred_inject_Z. cbv zeta.
  assert (H0 : Qeq_bool (inject_Z z) 0 = false).
  { destruct (Qeq_bool (inject_Z z) 0) eqn:E; [|reflexivity].
    apply Qeq_bool_eq in E. unfold Qeq in E. cbn in E. lia. }
  rewrite H0.
  assert (Habs : Qabs (inject_Z z) = inject_Z (Z.abs z)) by reflexivity.
  assert (Hpos : (0 < Z.abs z)%Z) by lia.
  pose proof (Z.log2_spec (Z.abs z) Hpos) as [Hlo _].
  pose proof (Z.log2_nonneg (Z.abs z)) as Hk0.
  assert (Hk : (Z.log2 (Z.abs z) < 53)%Z).
  { apply Z.log2_lt_pow2; [exact Hpos | exact Hz]. }
  assert (Hlog : ilog2 (inject_Z z) = Z.log2 (Z.abs z)).
  { unfold ilog2. cbn [Qnum Qden inject_Z].
    change (Z.log2 1) with 0%Z. rewrite Z.sub_0_r.
    assert (Hle : Qle_bool (pow2 (Z.log2 (Z.abs z))) (Qabs (inject_Z z)) = true).
    { apply Qle_bool_iff. unfold pow2.
      rewrite (proj2 (Z.leb_le _ _) Hk0), Habs.
      rewrite <- Zle_Qle. exact Hlo. }
    rewrite Hle. reflexivity. }
  unfold ulp_exponent. rewrite Hlog.
  set (e := Z.max emin (Z.log2 (Z.abs z) - 52)).
  assert (He : (e <= 0)%Z) by (unfold e, emin; lia).
  set (P := (2 ^ (- e))%Z).
  assert (HP : (0 < inject_Z P)%Q) by (apply pow2_power_pos; lia).
  assert (HP0 : ~ (inject_Z P == 0)%Q).
  { intros E. rewrite E in HP. apply (Qlt_irrefl 0). exact HP. }
  pose proof (pow2_nonpos e He) as Hpow. fold P in Hpow.
  assert (Hm : round_half_even (inject_Z z / pow2 e) = (z * P)%Z).
  { apply round_half_even_integer. rewrite Hpow, inject_Z_mult.
    field. exact HP0. }
  rewrite Hm.
  assert (Hr : (inject_Z (z * P) * pow2 e == inject_Z z)%Q).
  { rewrite Hpow, inject_Z_mult. field. exact HP0. }
  assert (Hov : Qle_bool (pow2 emax) (Qabs (inject_Z (z * P) * pow2 e)) = false).
  { destruct (Qle_bool _ _) eqn:E; [|reflexivity]. exfalso.
    apply Qle_bool_iff in E. rewrite Hr, Habs in E.
    change (pow2 emax) with (inject_Z (2 ^ 1024)) in E.
    rewrite <- Zle_Qle in E.
    assert (2 ^ 53 < 2 ^ 1024)%Z by (apply Z.pow_lt_mono_r; lia).
    lia. }
  rewrite Hov. f_equal.
  rewrite (Qred_complete _ _ Hr). apply Qred_inject_Z.
Qed.

(** Rounding to two decimal digits leaves a whole number below [2^46] as
    it is: its product by 100 is below [2^53]. *)
Lemma round_decimals_integer (z : Z) :
  (Z.abs z < 2 ^ 46)%Z ->
  Fmt.round_decimals 2 (of_Z z) = Finite (inject_Z z).
Proof.
  intros Hz.
  assert (H46 : (2 ^ 46 * 100 < 2 ^ 53)%Z) by reflexivity.
  assert (H53 : (2 ^ 46 < 2 ^ 53)%Z) by reflexivity.
  unfold Fmt.round_decimals, of_Z.
  change (10 ^ Z.of_nat 2)%Z with 100%Z.
  rewrite (round_integer 100) by reflexivity.
  rewrite (round_integer z) by lia.
  cbn [mul rint div].
  rewrite (round_comp (inject_Z z * inject_Z 100) (inject_Z (z * 100)))
    by (rewrite inject_Z_mult; reflexivity).
  rewrite (round_integer (z * 100)) by lia.
  cbn [rint].
  rewrite (round_half_even_integer (inject_Z (z * 100)) (z * 100)) by reflexivity.
  cbn [div]. change (Qeq_bool (inject_Z 100) 0) with false. cbv iota.
  rewrite (round_comp (inject_Z (z * 100) / inject_Z 100) (inject_Z z)).
  - apply round_integer. lia.
  - rewrite inject_Z_mult. field.
Qed.









(** NaN stays NaN. *)
Lemma round_decimals_nan (d : nat) :
  Fmt.round_decimals d NaN = NaN.
Proof. reflexivity. Qed.

End Float64Facts.

(** The rounding of the summary table is done in float64: the float
    written 0.015, which denotes a number below 0.015, and the float
    written 0.025, which denotes a number above 0.025, both round to the
    float written 0.02. *)
Lemma round_decimals_ties :
  Fmt.round_decimals 2 (Float64.Finite Fixture.d0015) = Float64.round (2 # 100)
  /\ Fmt.round_decimals 2 (Float64.Finite Fixture.d0025) = Float64.round (2 # 100)
  /\ (Fixture.d0015 < 15 # 1000)%Q
  /\ (25 # 1000 < Fixture.d0025)%Q.
Proof. vm_compute. repeat split. Qed.

(** ** The value boxes *)


(** The texts the predicate [shows] refuses: superfluous zeros, and no
    digit at all. *)
Lemma shows_refuses :
  ~ shows 0 11200 (list_ascii_of_string "0,011,200")
  /\ ~ shows 0 0 [].
Proof.
  split; intros (_ & (Hne & _ & Hzero) & _).
  - cbn in Hzero. specialize (Hzero eq_refl). discriminate Hzero.
  - apply Hne. reflexivity.
Qed.



(** The texts of the value boxes on the first ten days of the sample
    table. *)
Lemma value_box_texts_first_ten :
  let s := Fixture.session Fixture.first_ten Sales 7 in
  fst (total_sales Fixture.df s) = Py.Ok "$11,200"%string
  /\ fst (avg_users Fixture.lib Fixture.df s) = Py.Ok "502"%string
  /\ fst (conv_rate Fixture.lib Fixture.df s) = Py.Ok "2.98%"%string.
Proof. vm_compute. repeat split. Qed.

(** The percentage of a float is rounded after the multiplication by 100
    in float64: the float written 0.02125 times 100 is 2.125 exactly,
    which is shown as 2.12, while the hundredth nearest to 100 times the
    number it denotes is 2.13. *)
Lemma format_percent_tie :
  Fmt.format_percent 2 (Float64.Finite Fixture.d002125) = "2.12%"%string
  /\ Float64.mul (Float64.Finite Fixture.d002125) (Float64.Finite 100)
     = Float64.Finite (17 # 8)
  /\ (17 # 8 < Fixture.d002125 * 100)%Q.
Proof. vm_compute. repeat split. Qed.

(** * Further properties *)

(** ** Composition of filters *)

Lemma in_rangeb_meet (r1 r2 : Z * Z) (x : Row) :
  in_rangeb (range_meet r1 r2) x = in_rangeb r1 x && in_rangeb r2 x.
Proof. unfold in_rangeb, range_meet. cbn [fst snd]. lia. Qed.

Lemma filter_filter {A : Type} (p q : A -> bool) (l : list A) :
  filter q (filter p l) = filter (fun x => p x && q x) l.
Proof.
  induction l as [|x l IH]; [reflexivity|].
  cbn [filter]. destruct (p x); cbn [filter andb]; [|exact IH].
  destruct (q x); rewrite IH; reflexivity.
Qed.

(** Filtering a view again by a second range gives the rows of the table
    in the intersection of the two ranges, whichever range comes first;
    the ranges are given as [Timestamp], for which the filter returns. *)
Theorem filter_compose (df : DataFrame) (r1 r2 : Z * Z) :
  exists v1 v12 v2 v21 v,
    filter_frame df (timestamps r1) = Py.Ok v1
    /\ filter_frame v1 (timestamps r2) = Py.Ok v12
    /\ filter_frame df (timestamps r2) = Py.Ok v2
    /\ filter_frame v2 (timestamps r1) = Py.Ok v21
    /\ filter_frame df (timestamps (range_meet r1 r2)) = Py.Ok v
    /\ rows v12 = rows v
    /\ rows v12 = rows v21.
Proof.
  do 5 eexists.
  do 5 (split; [apply filter_frame_timestamps|]).
  rewrite !getitem_mask_rows. unfold rows_in_range. rewrite !filter_filter.
  split; apply filter_ext; intros x.
  - symmetry. apply in_rangeb_meet.
  - apply andb_comm.
Qed.

(** ** The initial inputs *)






(** ** The total-sales box and the start of the range *)

Lemma last_cons_nonempty {A : Type} (x : A) (l : list A) (d : A) :
  l <> [] -> last (x :: l) d = last l d.
Proof. destruct l; [contradiction | reflexivity]. Qed.

Lemma last_map_default {A B : Type} (f : A -> B) (l : list A) (d : A) :
  last (map f l) (f d) = f (last l d).
Proof.
  induction l as [|x l IH]; [reflexivity|].
  destruct l as [|y l]; [reflexivity|]. exact IH.
Qed.

Lemma iloc_last_nonempty {A : Type} (l : list A) (d : A) :
  l <> [] -> iloc_last l = Py.Ok (last l d).
Proof.
  intros Hne. unfold iloc_last.
  rewrite <- (FmtFacts.hd_rev l d).
  destruct (rev l) eqn:E; [|reflexivity].
  apply (f_equal (@rev A)) in E. rewrite rev_involutive in E. contradiction.
Qed.

Lemma filter_in_range_up_to (a b : Z) (l : list Row) :
  (forall r, In r l -> a <= date r) ->
  filter (in_rangeb (a, b)) l = filter (fun r => date r <=? b) l.
Proof.
  intros Hall. apply filter_ext_in. intros r Hr.
  unfold in_rangeb. cbn [fst snd].
  rewrite (proj2 (Z.leb_le _ _) (Hall r Hr)). reflexivity.
Qed.

Lemma filter_nil_beyond (a b : Z) (l : list Row) :
  (forall r, In r l -> b < date r) -> filter (in_rangeb (a, b)) l = [].
Proof.
  intros Hall. induction l as [|r l IH]; [reflexivity|].
  cbn [filter]. unfold in_rangeb at 1. cbn [fst snd].
  rewrite (proj2 (Z.leb_gt _ _) (Hall r (or_introl eq_refl))), andb_false_r.
  apply IH. intros x Hx. apply Hall. right. exact Hx.
Qed.

(** In a table sorted by date, the last row of a non-empty view is the
    last row dated on or before the end of the range. *)
Lemma last_in_range_sorted (a b : Z) (l : list Row) (d : Row) :
  StronglySorted (fun x y => date x <= date y) l ->
  filter (in_rangeb (a, b)) l <> [] ->
  last (filter (in_rangeb (a, b)) l) d
  = last (filter (fun r => date r <=? b) l) d.
Proof.
  induction 1 as [|r l Hs IH Hr]; intros Hne; [contradiction|].
  rewrite Forall_forall in Hr.
  cbn [filter] in *. unfold in_rangeb at 1 in Hne. unfold in_rangeb at 1.
  cbn [fst snd] in *.
  destruct (Z.leb_spec (date r) b) as [Hb|Hb].
  - destruct (Z.leb_spec a (date r)) as [Ha|Ha]; cbn [andb] in *.
    + rewrite (filter_in_range_up_to a b l); [reflexivity|].
      intros x Hx. specialize (Hr x Hx). lia.
    + rewrite (IH Hne). symmetry. apply last_cons_nonempty.
      intros E. apply Hne.
      destruct (filter (in_rangeb (a, b)) l) as [|x f] eqn:Ef; [reflexivity|].
      assert (Hx : In x (filter (in_rangeb (a, b)) l)) by (rewrite Ef; left; reflexivity).
      apply filter_In in Hx as [Hx Hin]. unfold in_rangeb in Hin. cbn [fst snd] in Hin.
      assert (Hx' : In x (filter (fun r0 => date r0 <=? b) l)).
      { apply filter_In. split; [exact Hx|]. lia. }
      rewrite E in Hx'. contradiction.
  - rewrite andb_false_r in Hne. exfalso. apply Hne.
    apply filter_nil_beyond. intros x Hx. specialize (Hr x Hx). lia.
Qed.

(** On a table sorted by date, the total-sales text depends on the end
    of the range only: two ranges with the same end, for each of which
    the filter returns at least one row, give the same text. *)
Theorem total_sales_ignores_start
    (df : DataFrame) (i1 i2 : Inputs) (v1 v2 : DataFrame) :
  ascending (rows df) ->
  snd (date_range i1) = snd (date_range i2) ->
  filter_frame df (date_range i1) = Py.Ok v1 -> rows v1 <> [] ->
  filter_frame df (date_range i2) = Py.Ok v2 -> rows v2 <> [] ->
  fst (total_sales df (new_session i1)) = fst (total_sales df (new_session i2)).
Proof.
  intros Hasc Hend Hv1 H1 Hv2 H2.
  rewrite (total_sales_run df (new_session i1) v1) by exact Hv1.
  rewrite (total_sales_run df (new_session i2) v2) by exact Hv2.
  cbn [fst].
  assert (Hss : StronglySorted (fun x y => date x <= date y) (rows df)).
  { apply Sorted_StronglySorted; [exact date_le_trans | exact Hasc]. }
  assert (Hlast : forall i v,
            filter_frame df (date_range i) = Py.Ok v -> rows v <> [] ->
            iloc_last (col_sales v)
            = Py.Ok (sales (last (filter (fun r => date r <=? day_of (snd (date_range i)))
                                         (rows df))
                                 (mkRow 0 0 0 0)))).
  { intros i v Hv Hi. unfold col_sales.
    rewrite (iloc_last_nonempty _ (sales (mkRow 0 0 0 0)))
      by (intros E; apply map_eq_nil in E; contradiction).
    rewrite last_map_default. do 2 f_equal.
    rewrite (filter_frame_rows df _ v Hv) in *.
    unfold rows_in_range, days in *.
    apply last_in_range_sorted; assumption. }
  rewrite (Hlast i1 v1 Hv1 H1), (Hlast i2 v2 Hv2 H2), Hend. reflexivity.
Qed.

Lemma total_sales_ignores_start_witness :
  let i1 := {| date_range := Fixture.first_ten; metric := Sales; window := 7 |} in
  let i2 := {| date_range := (Timestamp (Calendar.days_from_civil 2023 1 8),
                              Timestamp (Calendar.days_from_civil 2023 1 10));
               metric := Sales; window := 7 |} in
  ascending (rows Fixture.df)
  /\ snd (date_range i1) = snd (date_range i2)
  /\ (exists v1 v2,
        filter_frame Fixture.df (date_range i1) = Py.Ok v1 /\ rows v1 <> []
        /\ filter_frame Fixture.df (date_range i2) = Py.Ok v2 /\ rows v2 <> [])
  /\ fst (total_sales Fixture.df (new_session i1))
     = fst (total_sales Fixture.df (new_session i2)).
Proof.
  intros i1 i2.
  assert (Hend : snd (date_range i1) = snd (date_range i2)) by reflexivity.
  assert (Hv1 : filter_frame Fixture.df (date_range i1)
                = Py.Ok (Fixture.view Fixture.first_ten_days)) by reflexivity.
  assert (Hv2 : filter_frame Fixture.df (date_range i2)
                = Py.Ok (Fixture.view (Calendar.days_from_civil 2023 1 8,
                                       Calendar.days_from_civil 2023 1 10)))
    by reflexivity.
  assert (H1 : rows (Fixture.view Fixture.first_ten_days) <> [])
    by (vm_compute; discriminate).
  assert (H2 : rows (Fixture.view (Calendar.days_from_civil 2023 1 8,
                                   Calendar.days_from_civil 2023 1 10)) <> [])
    by (vm_compute; discriminate).
  split; [exact fixture_ascending|]. split; [exact Hend|].
  split; [do 2 eexists; repeat split; eassumption|].
  apply (total_sales_ignores_start Fixture.df i1 i2 _ _
           fixture_ascending Hend Hv1 H1 Hv2 H2).
Defined.

(** ** Views of the generated table *)

Lemma create_sample_data_rows {G : Type} `{Random.Generator G} (g : G) :
  let start := Calendar.days_from_civil 2023 1 1 in
  let s := Random.sample 100 (Random.normal 1000 200) (Random.seed 123) in
  let u := Random.sample 100 (Random.poisson 500) (snd s) in
  let c := Random.sample 100 (Random.uniform (1 # 100) (5 # 100)) (snd u) in
  extra (fst (create_sample_data g)) = []
  /\ col_date (fst (create_sample_data g)) = Calendar.date_range start 100
  /\ col_sales (fst (create_sample_data g)) = cumsum (fst s).
Proof.
  intros start s u c.
  pose proof (sample_length 100 (Random.normal 1000 200) (Random.seed 123)) as Ls.
  pose proof (sample_length 100 (Random.poisson 500) (snd s)) as Lu.
  pose proof (sample_length 100 (Random.uniform (1 # 100) (5 # 100)) (snd u)) as Lc.
  fold s in Ls. fold u in Lu. fold c in Lc.
  assert (Hdata : fst (create_sample_data g)
                  = {| rows := frame_rows (Calendar.date_range start 100)
                                 (cumsum (fst s)) (fst u) (fst c);
                       extra := [] |}).
  { unfold create_sample_data. fold start. fold s.
    destruct s as [s0 g1] eqn:Es. cbn [snd] in u. fold u.
    destruct u as [u0 g2] eqn:Eu. cbn [snd] in c. fold c.
    destruct c as [c0 g3] eqn:Ec. reflexivity. }
  assert (Ld : length (Calendar.date_range start 100) = 100%nat).
  { unfold Calendar.date_range. rewrite length_map, length_seq. reflexivity. }
  destruct (frame_rows_columns (Calendar.date_range start 100)
              (cumsum (fst s)) (fst u) (fst c)) as (Hd & Hs & _ & _).
  { rewrite cumsum_length. congruence. }
  { congruence. }
  { congruence. }
  unfold col_date, col_sales. rewrite Hdata. cbn [rows extra].
  split; [reflexivity|]. split; assumption.
Qed.

Lemma map_date_filter (range : Z * Z) (l : list Row) :
  map date (rows_in_range range l)
  = filter (fun d => (fst range <=? d) && (d <=? snd range)) (map date l).
Proof.
  unfold rows_in_range.
  induction l as [|r l IH]; [reflexivity|].
  cbn [filter map]. unfold in_rangeb at 1.
  destruct ((fst range <=? date r) && (date r <=? snd range));
    cbn [map]; rewrite IH; reflexivity.
Qed.

(** The days of a run of consecutive days that lie in a range are the
    consecutive days of the intersection. *)
Lemma filter_consecutive (s a b : Z) (n k : nat) :
  let a' := Z.max a (s + Z.of_nat k) in
  let b' := Z.min b (s + Z.of_nat k + Z.of_nat n - 1) in
  filter (fun d => (a <=? d) && (d <=? b))
         (map (fun i => s + Z.of_nat i) (seq k n))
  = map (fun i => a' + Z.of_nat i) (seq 0 (Z.to_nat (b' - a' + 1))).
Proof.
  revert k. induction n as [|n IH]; intros k a' b'.
  - cbn [seq map filter].
    replace (Z.to_nat (b' - a' + 1)) with O by lia. reflexivity.
  - cbn [seq map filter]. specialize (IH (S k)). cbv zeta in IH. rewrite IH.
    replace (Z.min b (s + Z.of_nat (S k) + Z.of_nat n - 1)) with b' by lia.
    destruct (Z.leb_spec a (s + Z.of_nat k)) as [Ha|Ha];
      destruct (Z.leb_spec (s + Z.of_nat k) b) as [Hb|Hb]; cbn [andb].
    + replace (Z.to_nat (b' - a' + 1))
        with (S (Z.to_nat (b' - Z.max a (s + Z.of_nat (S k)) + 1))) by lia.
      cbn [seq map]. f_equal; [lia|].
      rewrite <- seq_shift, map_map. apply map_ext. intros i. lia.
    + replace (Z.to_nat (b' - a' + 1)) with O by lia.
      replace (Z.to_nat (b' - Z.max a (s + Z.of_nat (S k)) + 1)) with O by lia.
      reflexivity.
    + replace (Z.max a (s + Z.of_nat (S k))) with a' by lia. reflexivity.
    + replace (Z.max a (s + Z.of_nat (S k))) with a' by lia. reflexivity.
Qed.

(** Whatever the generator, the view of the generated table for a range
    of two [Timestamp] holds one row for each day from the later of the
    start of the range and 2023-01-01 to the earlier of its end and
    2023-04-10, in order. *)
Theorem generated_view_dates {G : Type} `{Random.Generator G} (g : G) (range : Z * Z) :
  let a := Z.max (fst range) (Calendar.days_from_civil 2023 1 1) in
  let b := Z.min (snd range) (Calendar.days_from_civil 2023 4 10) in
  exists view,
    filter_frame (fst (create_sample_data g)) (timestamps range) = Py.Ok view
    /\ col_date view = map (fun i => a + Z.of_nat i) (seq 0 (Z.to_nat (b - a + 1)))
    /\ length (rows view) = Z.to_nat (b - a + 1).
Proof.
  intros a b.
  eexists. split; [apply filter_frame_timestamps|].
  set (view := getitem_mask _ _).
  assert (Hd : col_date view
               = map (fun i => a + Z.of_nat i) (seq 0 (Z.to_nat (b - a + 1)))).
  { unfold view, col_date. rewrite getitem_mask_rows, map_date_filter.
    destruct (create_sample_data_rows g) as (_ & Hdates & _).
    unfold col_date in Hdates. rewrite Hdates. unfold Calendar.date_range.
    rewrite filter_consecutive. reflexivity. }
  split; [exact Hd|].
  unfold col_date in Hd. apply (f_equal (@length Z)) in Hd.
  rewrite !length_map, length_seq in Hd. exact Hd.
Qed.

(** ** The shared view across outputs *)

Lemma assoc_set_set {V : Type} (k : string) (a b : V) (l : list (string * V)) :
  assoc_set k b (assoc_set k a l) = assoc_set k b l.
Proof.
  induction l as [|[k' v'] l IH]; cbn [assoc_set].
  - rewrite String.eqb_refl. reflexivity.
  - destruct (String.eqb k k') eqn:E; cbn [assoc_set].
    + rewrite String.eqb_refl. reflexivity.
    + rewrite E, IH. reflexivity.
Qed.

Lemma setitem_setitem (f : DataFrame) (k : string) (a b : list (option Q)) :
  setitem (setitem f k a) k b = setitem f k b.
Proof. unfold setitem. cbn [rows extra]. rewrite assoc_set_set. reflexivity. Qed.

Lemma assoc_set_keys {V : Type} (k : string) (a b : V) (l : list (string * V)) :
  map fst (assoc_set k a l) = map fst (assoc_set k b l).
Proof.
  induction l as [|[k' v'] l IH]; cbn [assoc_set]; [reflexivity|].
  destruct (String.eqb k k'); cbn [map fst]; [reflexivity|].
  f_equal. exact IH.
Qed.

Lemma scalar_eqb_eq (a b : scalar) : scalar_eqb a b = true <-> a = b.
Proof.
  destruct a as [x|x], b as [y|y]; cbn; split; intros H;
    try discriminate; try (apply Z.eqb_eq in H; congruence);
    injection H as ->; apply Z.eqb_refl.
Qed.

Lemma range_eqb_eq (a b : scalar * scalar) : range_eqb a b = true <-> a = b.
Proof.
  unfold range_eqb. rewrite andb_true_iff, !scalar_eqb_eq.
  destruct a, b. cbn [fst snd]. split.
  - intros [-> ->]. reflexivity.
  - intros H. injection H as -> ->. split; reflexivity.
Qed.

Lemma set_inputs_same_range (m : Metric) (w : nat) (s : Session) :
  set_inputs {| date_range := date_range (inputs s); metric := m; window := w |} s
  = {| inputs := {| date_range := date_range (inputs s); metric := m; window := w |};
       calc_value := calc_value s |}.
Proof.
  unfold set_inputs. cbn [date_range].
  rewrite (proj2 (range_eqb_eq _ _) eq_refl). reflexivity.
Qed.

(** Running the trend plot again does not add a second column: with the
    same inputs the figure and the session state are the same; after a
    change of the metric or of the window the view keeps its rows and its
    columns, and its column [ma] holds the new moving average. *)
Theorem trend_plot_rerun
    (df : DataFrame) (s : Session) (m : Metric) (w : nat) (v : DataFrame) :
  current_view df s = Py.Ok v ->
  let s1 := snd (trend_plot df s) in
  let s2 := set_inputs {| date_range := date_range (inputs s);
                          metric := m; window := w |} s1 in
  exists v1 v2,
    current_view df s1 = Py.Ok v1
    /\ current_view df (snd (trend_plot df s2)) = Py.Ok v2
    /\ trend_plot df s1 = (fst (trend_plot df s), s1)
    /\ rows v2 = rows v1
    /\ columns v2 = columns v1
    /\ assoc_get "ma" (extra v2) = Some (rolling_mean w (getitem v1 m)).
Proof.
  intros Hv s1 s2.
  set (V1 := setitem v "ma"
               (rolling_mean (window (inputs s)) (getitem v (metric (inputs s))))).
  assert (Hs1 : s1 = {| inputs := inputs s; calc_value := Some V1 |}).
  { unfold s1. rewrite (trend_plot_run df s v Hv). reflexivity. }
  assert (Hs2 : s2 = {| inputs := {| date_range := date_range (inputs s);
                                     metric := m; window := w |};
                        calc_value := Some V1 |}).
  { assert (Hin : inputs s1 = inputs s) by (rewrite Hs1; reflexivity).
    unfold s2. rewrite <- Hin, set_inputs_same_range. rewrite Hs1. reflexivity. }
  assert (Hv1 : current_view df s1 = Py.Ok V1) by (rewrite Hs1; reflexivity).
  assert (Hv2 : current_view df s2 = Py.Ok V1) by (rewrite Hs2; reflexivity).
  exists V1, (setitem V1 "ma" (rolling_mean w (getitem V1 m))).
  split; [exact Hv1|].
  split.
  { rewrite (trend_plot_run df s2 V1 Hv2). rewrite Hs2. reflexivity. }
  split.
  { rewrite (trend_plot_run df s1 V1 Hv1), (trend_plot_run df s v Hv).
    rewrite Hs1. cbn [inputs fst].
    set (m0 := metric (inputs s)). set (w0 := window (inputs s)).
    assert (Hg : getitem V1 m0 = getitem v m0) by (destruct m0; reflexivity).
    rewrite Hg. unfold V1. fold m0 w0. rewrite setitem_setitem. reflexivity. }
  split; [reflexivity|]. split.
  - unfold V1. rewrite setitem_setitem. unfold columns, setitem. cbn [extra].
    f_equal. apply assoc_set_keys.
  - cbn [setitem extra]. apply assoc_get_set_same.
Qed.

Lemma trend_plot_rerun_witness :
  let s := Fixture.session Fixture.first_ten Users 7 in
  let s1 := snd (trend_plot Fixture.df s) in
  let s2 := set_inputs {| date_range := date_range (inputs s);
                          metric := Sales; window := 3 |} s1 in
  exists v v1 v2,
    current_view Fixture.df s = Py.Ok v
    /\ current_view Fixture.df s1 = Py.Ok v1
    /\ current_view Fixture.df (snd (trend_plot Fixture.df s2)) = Py.Ok v2
    /\ columns v2 = columns v1
    /\ assoc_get "ma" (extra v2) = Some (rolling_mean 3 (getitem v1 Sales)).
Proof.
  intros s s1 s2.
  assert (Hv : current_view Fixture.df s
               = Py.Ok (Fixture.view Fixture.first_ten_days)) by reflexivity.
  destruct (trend_plot_rerun Fixture.df s Sales 3 _ Hv)
    as (v1 & v2 & H1 & H2 & _ & _ & Hc & Hma).
  exists (Fixture.view Fixture.first_ten_days), v1, v2.
  split; [exact Hv|]. split; [exact H1|]. split; [exact H2|].
  split; [exact Hc | exact Hma].
Defined.

(** The value boxes and the summary table read the four original columns
    only: they return the same results after the trend plot has added
    its column to the shared view as before. *)
Theorem outputs_after_trend_plot (lib : Library) (df : DataFrame) (s : Session) :
  let s1 := snd (trend_plot df s) in
  fst (total_sales df s1) = fst (total_sales df s)
  /\ fst (avg_users lib df s1) = fst (avg_users lib df s)
  /\ fst (conv_rate lib df s1) = fst (conv_rate lib df s)
  /\ fst (summary_table lib df s1) = fst (summary_table lib df s).
Proof.
  intros s1.
  destruct (current_view df s) as [v|e] eqn:Hv.
  - set (V1 := setitem v "ma"
                 (rolling_mean (window (inputs s)) (getitem v (metric (inputs s))))).
    assert (Hv1 : current_view df s1 = Py.Ok V1).
    { unfold s1. rewrite (trend_plot_run df s v Hv). reflexivity. }
    rewrite (total_sales_run df s1 V1 Hv1), (total_sales_run df s v Hv),
      (avg_users_run lib df s1 V1 Hv1), (avg_users_run lib df s v Hv),
      (conv_rate_run lib df s1 V1 Hv1), (conv_rate_run lib df s v Hv),
      (summary_table_run lib df s1 V1 Hv1), (summary_table_run lib df s v Hv).
    repeat split.
  - assert (Hs1 : s1 = s) by (unfold s1; rewrite (trend_plot_raise df s e Hv); reflexivity).
    rewrite Hs1. repeat split.
Qed.

(** ** An invariant of the session *)

Lemma setitem_well_formed (f : DataFrame) (k : string) (v : list (option Q)) :
  well_formed f -> length v = length (rows f) -> well_formed (setitem f k v).
Proof.
  unfold well_formed, setitem. cbn [rows extra]. intros Hwf Hlen.
  induction Hwf as [|[k' v'] l Hc Hl IH]; cbn [assoc_set].
  - repeat constructor. exact Hlen.
  - destruct (String.eqb k k').
    + constructor; [exact Hlen | exact Hl].
    + constructor; [exact Hc | exact IH].
Qed.

Lemma getitem_length (f : DataFrame) (m : Metric) :
  length (getitem f m) = length (rows f).
Proof.
  destruct m; unfold getitem, col_sales, col_users, col_conversion;
    rewrite ?length_map; reflexivity.
Qed.

Lemma coherent_view (df : DataFrame) (s : Session) (view : DataFrame) :
  well_formed df -> coherent df s -> current_view df s = Py.Ok view ->
  (exists fresh,
     filter_frame df (date_range (inputs s)) = Py.Ok fresh
     /\ rows view = rows fresh)
  /\ well_formed view.
Proof.
  intros Hwf Hco. unfold current_view.
  destruct (calc_value s) as [v|] eqn:E.
  - intros H. injection H as <-. apply Hco. exact E.
  - intros H. split; [exists view; split; [exact H | reflexivity]|].
    apply (filter_frame_well_formed df _ view Hwf H).
Qed.

Lemma coherent_after_read (df : DataFrame) (s : Session) :
  well_formed df -> coherent df s -> coherent df (snd (filtered_data df s)).
Proof.
  intros Hwf Hco.
  destruct (current_view df s) as [view|e] eqn:Hview.
  - rewrite (filtered_data_ok df s view Hview). cbn [snd].
    intros v Hv. cbn [calc_value inputs] in *. injection Hv as <-.
    apply coherent_view; assumption.
  - rewrite (filtered_data_raise df s e Hview). exact Hco.
Qed.

Lemma coherent_reachable (lib : Library) (df : DataFrame) (s : Session) :
  well_formed df -> reachable lib df s -> coherent df s.
Proof.
  intros Hwf.
  induction 1 as [i|i s Hr IH|s Hr IH|s Hr IH|s Hr IH|s Hr IH|s Hr IH|s Hr IH].
  - intros v Hv. discriminate Hv.
  - intros v Hv. unfold set_inputs in *. cbn [calc_value inputs] in *.
    destruct (range_eqb (date_range i) (date_range (inputs s))) eqn:E;
      [|discriminate].
    apply range_eqb_eq in E. rewrite E. apply IH. exact Hv.
  - destruct (readers_leave_view lib df s) as (H & _). rewrite H.
    apply coherent_after_read; assumption.
  - destruct (readers_leave_view lib df s) as (_ & H & _). rewrite H.
    apply coherent_after_read; assumption.
  - destruct (readers_leave_view lib df s) as (_ & _ & H & _). rewrite H.
    apply coherent_after_read; assumption.
  - destruct (current_view df s) as [view|e] eqn:Hview.
    + rewrite (trend_plot_run df s view Hview). cbn [snd].
      destruct (coherent_view df s view Hwf IH Hview) as [Hrows Hwfv].
      intros v Hv. cbn [calc_value inputs] in *. injection Hv as <-.
      split; [exact Hrows|].
      apply setitem_well_formed; [exact Hwfv|].
      rewrite rolling_mean_length. apply getitem_length.
    + rewrite (trend_plot_raise df s e Hview). exact IH.
  - destruct (readers_leave_view lib df s) as (_ & _ & _ & H & _). rewrite H.
    apply coherent_after_read; assumption.
  - destruct (readers_leave_view lib df s) as (_ & _ & _ & _ & H). rewrite H.
    apply coherent_after_read; assumption.
Qed.


(** ** More on the moving average *)

Lemma Qlen_cons {A : Type} (x : A) (l : list A) : (Qlen (x :: l) == Qlen l + 1)%Q.
Proof.
  unfold Qlen. cbn [length]. rewrite Nat2Z.inj_succ, <- Z.add_1_r, inject_Z_plus.
  reflexivity.
Qed.

Lemma Qlen_nonneg {A : Type} (l : list A) : (0 <= Qlen l)%Q.
Proof. unfold Qlen. change 0%Q with (inject_Z 0). rewrite <- Zle_Qle. lia. Qed.

Lemma Qsum_bounds (lo hi : Q) (l : list Q) :
  (forall x, In x l -> (lo <= x)%Q /\ (x <= hi)%Q) ->
  (lo * Qlen l <= Qsum l)%Q /\ (Qsum l <= hi * Qlen l)%Q.
Proof.
  induction l as [|x l IH]; intros Hall.
  - unfold Qlen, Qsum. cbn. split; ring_simplify; apply Qle_refl.
  - destruct IH as [Hlo Hhi]; [intros y Hy; apply Hall; right; exact Hy|].
    destruct (Hall x (or_introl eq_refl)) as [Hx1 Hx2].
    rewrite Qlen_cons. cbn [Qsum fold_right]. fold (Qsum l). split; lra.
Qed.

(** The mean of values between two bounds lies between the bounds. *)
Lemma mean_bounds (lo hi : Q) (l : list Q) (m : Q) :
  (forall x, In x l -> (lo <= x)%Q /\ (x <= hi)%Q) ->
  mean l = Some m -> (lo <= m)%Q /\ (m <= hi)%Q.
Proof.
  intros Hall Hm. destruct l as [|x l]; [discriminate|].
  cbn [mean] in Hm. injection Hm as <-.
  destruct (Qsum_bounds lo hi (x :: l) Hall) as [Hlo Hhi].
  assert (Hn : (0 < Qlen (x :: l))%Q).
  { rewrite Qlen_cons. pose proof (Qlen_nonneg l). lra. }
  split.
  - apply Qle_shift_div_l; assumption.
  - apply Qle_shift_div_r; assumption.
Qed.

Lemma window_at_incl (w i : nat) (xs : list Q) (x : Q) :
  In x (window_at w i xs) -> In x xs.
Proof.
  unfold window_at. intros H.
  rewrite <- (firstn_skipn (i + 1 - w) xs). apply in_or_app. right.
  rewrite <- (firstn_skipn (i + 1 - (i + 1 - w)) (skipn (i + 1 - w) xs)).
  apply in_or_app. left. exact H.
Qed.

(** Every defined value of the moving average lies between any two
    bounds of the series it averages. *)
Theorem moving_average_bounds (w : nat) (xs : list Q) (lo hi : Q) :
  (forall x, In x xs -> (lo <= x)%Q /\ (x <= hi)%Q) ->
  forall i v, nth_error (rolling_mean w xs) i = Some (Some v) ->
    (lo <= v)%Q /\ (v <= hi)%Q.
Proof.
  intros Hall i v Hv. unfold rolling_mean in Hv.
  rewrite nth_error_map in Hv.
  destruct (nth_error (seq 0 (length xs)) i) as [j|]; [|discriminate].
  cbn [option_map] in Hv. injection Hv as Hv.
  destruct (w <=? length (window_at w j xs))%nat; [|discriminate].
  apply (mean_bounds lo hi (window_at w j xs)); [|exact Hv].
  intros x Hx. apply Hall. apply (window_at_incl w j xs x Hx).
Qed.

Lemma moving_average_bounds_witness :
  let xs := [1; 2; 3]%Q in
  (forall x, In x xs -> (1 <= x)%Q /\ (x <= 3)%Q)
  /\ exists v, nth_error (rolling_mean 2 xs) 1 = Some (Some v)
               /\ (1 <= v)%Q /\ (v <= 3)%Q.
Proof.
  intros xs.
  assert (Hall : forall x, In x xs -> (1 <= x)%Q /\ (x <= 3)%Q).
  { intros x [<-|[<-|[<-|[]]]]; split; discriminate. }
  split; [exact Hall|].
  eexists. split; [reflexivity|].
  apply (moving_average_bounds 2 xs 1 3 Hall 1). reflexivity.
Defined.

Lemma count_defined_seq (f : nat -> option Q) (c n k : nat) :
  (forall i, (k <= i < k + n)%nat ->
     (exists v, f i = Some v) <-> (c <= i)%nat) ->
  count_defined (map f (seq k n)) = (k + n - Nat.max c k)%nat.
Proof.
  unfold count_defined. revert k. induction n as [|n IH]; intros k Hf.
  - cbn. lia.
  - pose proof (IH (S k) (fun i Hi => Hf i ltac:(lia))) as IH'.
    cbn [seq map filter].
    destruct (f k) as [v|] eqn:E.
    + assert (c <= k)%nat by (apply Hf; [lia | exists v; exact E]).
      cbn [length]. rewrite IH'. lia.
    + assert (~ (c <= k)%nat).
      { intros Hc. apply Hf in Hc as [v Hv]; [congruence | lia]. }
      rewrite IH'. lia.
Qed.

(** With a window of [w >= 1] values over a series of [n], the moving
    average has [n - w + 1] defined positions, none when [w > n]. *)
Theorem moving_average_defined_count (w : nat) (xs : list Q) :
  (1 <= w)%nat ->
  count_defined (rolling_mean w xs) = (length xs + 1 - w)%nat.
Proof.
  intros Hw. unfold rolling_mean.
  rewrite (count_defined_seq _ (w - 1)); [lia|].
  intros i Hi. cbv zeta.
  destruct (Nat.le_gt_cases (w - 1) i) as [Hge|Hlt].
  - pose proof (rolling_mean_defined w i xs Hw Hge ltac:(lia)) as Hd.
    unfold rolling_mean in Hd. rewrite nth_error_map_seq in Hd by lia.
    cbv zeta in Hd. injection Hd as Hd. rewrite Hd.
    split; [intros _; exact Hge | intros _; eexists; reflexivity].
  - pose proof (rolling_mean_undefined w i xs Hlt ltac:(lia)) as Hd.
    unfold rolling_mean in Hd. rewrite nth_error_map_seq in Hd by lia.
    cbv zeta in Hd. injection Hd as Hd. rewrite Hd.
    split; [intros [v Hv]; discriminate | lia].
Qed.

Lemma moving_average_defined_count_witness :
  let xs := getitem (Fixture.view Fixture.first_ten_days) Users in
  (1 <= 7)%nat
  /\ length xs = 10%nat
  /\ count_defined (rolling_mean 7 xs) = 4%nat.
Proof.
  intros xs.
  assert (Hw : (1 <= 7)%nat) by lia.
  assert (Hl : length xs = 10%nat) by (vm_compute; reflexivity).
  split; [exact Hw|]. split; [exact Hl|].
  rewrite (moving_average_defined_count 7 xs Hw), Hl. reflexivity.
Defined.

(** ** The counts of the summary table *)

Lemma count_in_range_le (lo hi : Z) (l : list Row) :
  (count_in_range lo hi l <= length l)%nat.
Proof.
  induction l as [|r l IH]; [apply Nat.le_refl|].
  cbn [count_in_range length].
  destruct (Z_le_dec lo (date r)); [destruct (Z_le_dec (date r) hi)|]; lia.
Qed.

Lemma describe_count (lib : Library) (xs : list Q) :
  Z.of_nat (length xs) < 2 ^ 46 ->
  Describe.count (Describe.round_column 2 (Describe.describe_1d lib xs))
  = Float64.Finite (inject_Z (Z.of_nat (length xs))).
Proof.
  intros Hn. cbn [Describe.round_column Describe.describe_1d Describe.count].
  apply Float64Facts.round_decimals_integer. lia.
Qed.

(** In every state a session can reach, on a table of fewer than [2^46]
    rows, the three counts of a summary table that is returned are the
    number of rows of the table dated in the selected range. *)
Theorem summary_counts_rows
    (lib : Library) (df : DataFrame) (s : Session) (view : DataFrame) :
  well_formed df ->
  reachable lib df s ->
  current_view df s = Py.Ok view ->
  Z.of_nat (length (rows df)) < 2 ^ 46 ->
  let range := days (date_range (inputs s)) in
  let n := count_in_range (fst range) (snd range) (rows df) in
  exists table,
    fst (summary_table lib df s) = Py.Ok table
    /\ Forall (fun c => Describe.count c = Float64.Finite (inject_Z (Z.of_nat n)))
              [sum_sales table; sum_users table; sum_conversion table].
Proof.
  intros Hwf Hr Hview Hlen range n.
  destruct (coherent_view df s view Hwf (coherent_reachable lib df s Hwf Hr) Hview)
    as [(fresh & Hfresh & Hrows) _].
  assert (Hn : length (rows view) = n).
  { rewrite Hrows, (filter_frame_rows df _ fresh Hfresh).
    apply rows_in_range_length. }
  assert (Hb : Z.of_nat n < 2 ^ 46).
  { pose proof (count_in_range_le (fst range) (snd range) (rows df)). fold n in H. lia. }
  rewrite (summary_table_run lib df s view Hview). cbv zeta. cbn [fst].
  eexists. split; [reflexivity|].
  cbn [sum_sales sum_users sum_conversion].
  assert (Hc : forall xs : list Q, length xs = n ->
            Describe.count (Describe.round_column 2 (Describe.describe_1d lib xs))
            = Float64.Finite (inject_Z (Z.of_nat n))).
  { intros xs <-. apply describe_count. exact Hb. }
  repeat constructor; apply Hc; unfold col_sales, col_users, col_conversion;
    rewrite ?length_map; exact Hn.
Qed.

Lemma summary_counts_rows_witness :
  let s := snd (trend_plot Fixture.df (Fixture.session Fixture.first_ten Users 7)) in
  well_formed Fixture.df
  /\ reachable Fixture.lib Fixture.df s
  /\ Z.of_nat (length (rows Fixture.df)) < 2 ^ 46
  /\ exists view table,
       current_view Fixture.df s = Py.Ok view
       /\ fst (summary_table Fixture.lib Fixture.df s) = Py.Ok table
       /\ Forall (fun c => Describe.count c = Float64.Finite (inject_Z 10))
                 [sum_sales table; sum_users table; sum_conversion table].
Proof.
  intros s.
  assert (Hwf : well_formed Fixture.df) by constructor.
  assert (Hr : reachable Fixture.lib Fixture.df s)
    by (apply reach_trend_plot, reach_new).
  assert (Hlen : Z.of_nat (length (rows Fixture.df)) < 2 ^ 46)
    by (vm_compute; reflexivity).
  assert (Hs : s = {| inputs := inputs (Fixture.session Fixture.first_ten Users 7);
                      calc_value :=
                        Some (setitem (Fixture.view Fixture.first_ten_days) "ma"
                                (rolling_mean 7
                                   (getitem (Fixture.view Fixture.first_ten_days)
                                      Users))) |}).
  { unfold s. rewrite (trend_plot_run Fixture.df _ (Fixture.view Fixture.first_ten_days));
      reflexivity. }
  assert (Hview : exists view, current_view Fixture.df s = Py.Ok view).
  { rewrite Hs. eexists. reflexivity. }
  destruct Hview as [view Hview].
  split; [exact Hwf|]. split; [exact Hr|]. split; [exact Hlen|].
  destruct (summary_counts_rows Fixture.lib Fixture.df s view Hwf Hr Hview Hlen)
    as (table & Ht & Hc).
  exists view, table. split; [exact Hview|]. split; [exact Ht|].
  assert (Hn : count_in_range (fst (days (date_range (inputs s))))
                 (snd (days (date_range (inputs s)))) (rows Fixture.df) = 10%nat).
  { rewrite Hs. vm_compute. reflexivity. }
  rewrite Hn in Hc. exact Hc.
Defined.

(** ** The summary of an empty view *)

(** On a view without rows every count of the summary table is 0 and
    every other statistic is NaN. *)
Theorem summary_empty_view
    (lib : Library) (df : DataFrame) (s : Session) (view : DataFrame) :
  current_view df s = Py.Ok view ->
  rows view = [] ->
  exists table,
    fst (summary_table lib df s) = Py.Ok table
    /\ Forall (fun c => Describe.count c = Float64.Finite 0
                        /\ Forall (fun cell => cell = Float64.NaN) (Describe.others c))
              [sum_sales table; sum_users table; sum_conversion table].
Proof.
  intros Hview Hempty.
  rewrite (summary_table_run lib df s view Hview). cbv zeta. cbn [fst].
  eexists. split; [reflexivity|].
  cbn [sum_sales sum_users sum_conversion].
  unfold col_sales, col_users, col_conversion. rewrite Hempty. cbn [map].
  repeat constructor.
Qed.

Lemma summary_empty_view_witness :
  let s := Fixture.session Fixture.before_start Sales 7 in
  let view := Fixture.view Fixture.before_start_days in
  current_view Fixture.df s = Py.Ok view
  /\ rows view = []
  /\ exists table,
       fst (summary_table Fixture.lib Fixture.df s) = Py.Ok table
       /\ Forall (fun c => Describe.count c = Float64.Finite 0
                           /\ Forall (fun cell => cell = Float64.NaN)
                                     (Describe.others c))
                 [sum_sales table; sum_users table; sum_conversion table].
Proof.
  intros s view.
  assert (Hview : current_view Fixture.df s = Py.Ok view) by reflexivity.
  assert (H : rows view = []) by (vm_compute; reflexivity).
  split; [exact Hview|]. split; [exact H|].
  apply (summary_empty_view Fixture.lib Fixture.df s view Hview H).
Defined.

(** ** Names of the server function, again *)

Lemma exec_filtered_data (o : Scope.object) :
  let start := {| Scope.locals := Scope.parameters; Scope.registered := [] |} in
  Scope.exec_def (("reactive"%string, o) :: Scope.module_globals) start
    (Scope.mkDef "filtered_data" [Scope.Attribute (Scope.Name "reactive") "Calc"])
  = match assoc_get "Calc" (Scope.attrs o) with
    | None => (Py.Raise (Py.AttributeError "Calc"), start)
    | Some calc =>
        if Scope.callable calc
        then (Py.Ok tt,
              {| Scope.locals :=
                   ("filtered_data"%string, Scope.function) :: Scope.parameters;
                 Scope.registered := [] |})
        else (Py.Raise Scope.not_callable, start)
    end.
Proof.
  intros start. unfold Scope.exec_def.
  cbn [Scope.decorators Scope.eval_decorators Scope.eval].
  change (Scope.lookup (("reactive"%string, o) :: Scope.module_globals) start
            "reactive")
    with (Py.Ok o).
  cbn [Py.bind].
  destruct (assoc_get "Calc" (Scope.attrs o)) as [calc|]; [|reflexivity].
  cbn [Py.bind Scope.apply_decorators].
  destruct (Scope.callable calc); reflexivity.
Qed.

(** Whatever object the module binds to the name [reactive], a call of
    the server function succeeds exactly when that object has an
    attribute [Calc] that can be called; then it registers the six
    outputs.  Without the attribute the call raises [AttributeError], and
    with an attribute that cannot be called it raises [TypeError]; in
    both cases no output is registered and no function is defined. *)
Theorem server_needs_reactive (o : Scope.object) :
  let run := Scope.server (("reactive"%string, o) :: Scope.module_globals) in
  let start := {| Scope.locals := Scope.parameters; Scope.registered := [] |} in
  match assoc_get "Calc" (Scope.attrs o) with
  | None => run = (Py.Raise (Py.AttributeError "Calc"), start)
  | Some calc =>
      if Scope.callable calc
      then fst run = Py.Ok tt
           /\ Scope.registered (snd run)
              = ["total_sales"; "avg_users"; "conv_rate"; "trend_plot";
                 "summary_table"; "raw_data"]%string
      else run = (Py.Raise Scope.not_callable, start)
  end.
Proof.
  intros run start. unfold run, Scope.server, Scope.server_body.
  cbn [Scope.exec_body]. rewrite exec_filtered_data.
  destruct (assoc_get "Calc" (Scope.attrs o)) as [calc|]; [|reflexivity].
  destruct (Scope.callable calc); [|reflexivity].
  vm_compute. split; reflexivity.
Qed.

(** ** The shape of the figure *)

(** The trend plot always draws two lines over the same dates, and each
    line has one value per row of the view: the plotting calls never
    receive coordinates of different lengths, whatever the window and
    also on an empty view. *)
Theorem trend_plot_figure_shape (df : DataFrame) (s : Session) (view : DataFrame) :
  current_view df s = Py.Ok view ->
  let n := length (rows view) in
  exists fig daily ma,
    fst (trend_plot df s) = Py.Ok fig
    /\ fig_lines fig = [daily; ma]
    /\ line_x daily = line_x ma
    /\ length (line_x daily) = n
    /\ length (line_y daily) = n
    /\ length (line_y ma) = n.
Proof.
  intros Hview n. rewrite (trend_plot_run df s view Hview). cbv zeta. cbn [fst].
  do 3 eexists. split; [reflexivity|]. cbn [fig_lines].
  split; [reflexivity|]. cbn [line_x line_y].
  split; [reflexivity|].
  split; [unfold col_date; apply length_map|].
  split; [rewrite length_map; apply getitem_length|].
  rewrite rolling_mean_length. apply getitem_length.
Qed.

Lemma trend_plot_figure_shape_witness :
  let s := Fixture.session Fixture.before_start Sales 30 in
  let view := Fixture.view Fixture.before_start_days in
  current_view Fixture.df s = Py.Ok view
  /\ length (rows view) = 0%nat
  /\ exists fig daily ma,
       fst (trend_plot Fixture.df s) = Py.Ok fig
       /\ fig_lines fig = [daily; ma]
       /\ line_x daily = line_x ma
       /\ length (line_y daily) = length (line_y ma).
Proof.
  intros s view.
  assert (Hview : current_view Fixture.df s = Py.Ok view) by reflexivity.
  split; [exact Hview|]. split; [vm_compute; reflexivity|].
  destruct (trend_plot_figure_shape Fixture.df s view Hview)
    as (fig & daily & ma & H1 & H2 & H3 & _ & H5 & H6).
  exists fig, daily, ma. repeat split; try assumption. congruence.
Defined.

(** ** The statistics of the summary table *)

Lemma insert_sorted_permutation (x : Q) (l : list Q) :
  Permutation (insert_sorted x l) (x :: l).
Proof.
  induction l as [|y l IH]; [reflexivity|].
  cbn [insert_sorted]. destruct (Qle_bool x y); [reflexivity|].
  rewrite IH. apply perm_swap.
Qed.

(** The sorted values are the values of the column, each as often as the
    column has it. *)
Lemma sort_values_permutation (l : list Q) : Permutation (sort_values l) l.
Proof.
  induction l as [|x l IH]; [reflexivity|].
  cbn [sort_values fold_right]. fold (sort_values l).
  rewrite insert_sorted_permutation. apply perm_skip. exact IH.
Qed.

Lemma insert_sorted_sorted (x : Q) (l : list Q) :
  Sorted Qle l -> Sorted Qle (insert_sorted x l).
Proof.
  induction l as [|y l IH]; intros Hs.
  - repeat constructor.
  - cbn [insert_sorted]. destruct (Qle_bool x y) eqn:E.
    + apply Qle_bool_iff in E. constructor; [exact Hs | constructor; exact E].
    + assert (Hyx : (y <= x)%Q).
      { destruct (Qlt_le_dec y x) as [H|H]; [apply Qlt_le_weak; exact H|].
        apply Qle_bool_iff in H. rewrite H in E. discriminate E. }
      inversion Hs as [|? ? Hs' Hhd]; subst.
      constructor; [apply IH; exact Hs'|].
      destruct l as [|z l]; cbn [insert_sorted].
      * constructor. exact Hyx.
      * destruct (Qle_bool x z); constructor;
          [exact Hyx | inversion Hhd; assumption].
Qed.

(** They are in ascending order. *)
Lemma sort_values_sorted (l : list Q) : Sorted Qle (sort_values l).
Proof.
  induction l as [|x l IH]; [constructor|].
  cbn [sort_values fold_right]. fold (sort_values l).
  apply insert_sorted_sorted. exact IH.
Qed.












(** The summary of the conversion rates on the first ten days of the
    sample table, cell by cell: each cell is the float written with two
    decimal digits. *)
Lemma summary_first_ten :
  let s := Fixture.session Fixture.first_ten Sales 7 in
  exists table,
    fst (summary_table Fixture.lib Fixture.df s) = Py.Ok table
    /\ Describe.count (sum_conversion table) = Float64.Finite 10
    /\ Describe.mean_ (sum_conversion table) = Float64.round (3 # 100)
    /\ Describe.min_ (sum_conversion table) = Float64.round (1 # 100)
    /\ Describe.max_ (sum_conversion table) = Float64.round (5 # 100).
Proof.
  intros s. eexists. split; [reflexivity|]. vm_compute. repeat split.
Qed.

(** ** The range the input delivers *)

(** The first ten days picked in the date range input: every output
    raises at the comparison of line 76. *)
Lemma outputs_on_picked_dates :
  let s := Fixture.session Fixture.first_ten_picked Sales 7 in
  fst (total_sales Fixture.df s) = Py.Raise invalid_comparison
  /\ fst (avg_users Fixture.lib Fixture.df s) = Py.Raise invalid_comparison
  /\ fst (conv_rate Fixture.lib Fixture.df s) = Py.Raise invalid_comparison
  /\ fst (trend_plot Fixture.df s) = Py.Raise invalid_comparison
  /\ fst (summary_table Fixture.lib Fixture.df s) = Py.Raise invalid_comparison
  /\ fst (raw_data Fixture.df s) = Py.Raise invalid_comparison.
Proof.
  intros s.
  destruct (outputs_raise Fixture.lib Fixture.df s invalid_comparison eq_refl)
    as (-> & -> & -> & -> & -> & ->).
  repeat split.
Qed.
